(** * hermpy.trajectory: a shallow embedding and its properties

    The module [hermpy/trajectory.py] samples spacecraft positions from a
    SPICE ephemeris, rotates them into the aberrated frame, and searches
    altitude series for apoapsides.

    Conventions of the embedding.
    - A Python/NumPy float is read as a real number ([R]); every arithmetic
      operation is the exact one.  Rounding, infinities and NaN are outside
      the model.
    - A [datetime.datetime] is the count of microseconds since
      0001-01-01T00:00:00 ([Z]); a [datetime.timedelta] is a signed count of
      microseconds.  The calendar bounds of [datetime] are not modelled.
    - The SPICE toolkit is the ephemeris provider: [str2et] and [spkpos] are
      section variables.  [spkpos] may fail (a data gap raises
      [SpiceyError]), which is what [Get_Position] guards against.
    - [scipy.signal.find_peaks] called with no condition returns the output
      of SciPy's [_local_maxima_1d]; that loop is transcribed below.
    - The [plot] arguments only draw figures and are left out. *)

From Stdlib Require Import Reals Lra Lia ZArith String List Bool Psatz.
Import ListNotations.

Open Scope Z_scope.

(** ** Outcomes of a call *)

Inductive exn : Type :=
| SpiceyError   (* raised by the ephemeris provider *)
| ValueError
| IndexError.

Inductive outcome (A : Type) : Type :=
| Return (a : A)
| Raise (e : exn)
| OutOfFuel.   (* the loop did not finish within the iterations granted *)

Arguments Return {A} a.
Arguments Raise {A} e.
Arguments OutOfFuel {A}.

Definition bind {A B : Type} (m : outcome A) (k : A -> outcome B) : outcome B :=
  match m with
  | Return a => k a
  | Raise e => Raise e
  | OutOfFuel => OutOfFuel
  end.

Definition fmap {A B : Type} (f : A -> B) (m : outcome A) : outcome B :=
  bind m (fun a => Return (f a)).

Notation "x <- m ;; k" := (bind m (fun x => k))
  (at level 61, m at next level, right associativity).
Notation "' pat <- m ;; k" := (bind m (fun x => match x with pat => k end))
  (at level 61, pat pattern, m at next level, right associativity).

(** [for a in l: acc.append(f(a))], stopping at the first exception. *)
Fixpoint for_each {A B : Type} (f : A -> outcome B) (l : list A) : outcome (list B) :=
  match l with
  | [] => Return []
  | a :: l' =>
      b <- f a ;;
      bs <- for_each f l' ;;
      Return (b :: bs)
  end.

(** ** Data *)

Record vec3 : Type := mkVec { v0 : R; v1 : R; v2 : R }.

Definition datetime := Z.
Definition timedelta := Z.

Definition microseconds_per_second : Z := 1000000.
Definition minutes (n : Z) : timedelta := n * 60 * microseconds_per_second.
Definition hours (n : Z) : timedelta := n * 3600 * microseconds_per_second.

(** [date.strftime("%Y-%m-%d %H:%M:%S")]: the text names the whole second of
    [date] and drops its microseconds; it is identified with that second. *)
Definition strftime (date : datetime) : Z := date / microseconds_per_second.

(** [timedelta.__truediv__] by an [int]: CPython's [_divide_and_round],
    nearest microsecond with ties to even. *)
Definition divide_and_round (a b : Z) : Z :=
  let q := a / b in
  let r := 2 * (a mod b) in
  let greater_than_half := if 0 <? b then b <? r else r <? b in
  if greater_than_half || ((r =? b) && (q mod 2 =? 1)) then q + 1 else q.

(** [np.sqrt(p[0] ** 2 + p[1] ** 2 + p[2] ** 2)] *)
Definition norm (p : vec3) : R :=
  sqrt (v0 p ^ 2 + v1 p ^ 2 + v2 p ^ 2)%R.

Definition Rltb (a b : R) : bool := if Rlt_dec a b then true else false.
Definition Reqb (a b : R) : bool := if Req_dec_T a b then true else false.

(** ** scipy.signal.find_peaks *)

Section LocalMaxima.
Context {A : Type} (ltb eqb : A -> A -> bool) (dflt : A).

(** [while i_ahead < i_max and x[i_ahead] == x[i]: i_ahead += 1] *)
Fixpoint plateau_end (x : list A) (xi : A) (i_max fuel i_ahead : nat) : nat :=
  match fuel with
  | O => i_ahead
  | S fuel' =>
      if (i_ahead <? i_max)%nat && eqb (nth i_ahead x dflt) xi
      then plateau_end x xi i_max fuel' (S i_ahead)
      else i_ahead
  end.

(** The outer loop [while i < i_max] of [_local_maxima_1d]; the midpoints
    it records are the peaks. *)
Fixpoint local_maxima_from (x : list A) (i_max fuel i : nat) : list nat :=
  match fuel with
  | O => []
  | S fuel' =>
      if (i <? i_max)%nat then
        if ltb (nth (i - 1) x dflt) (nth i x dflt) then
          let i_ahead := plateau_end x (nth i x dflt) i_max i_max (i + 1) in
          if ltb (nth i_ahead x dflt) (nth i x dflt) then
            let left_edge := i in
            let right_edge := (i_ahead - 1)%nat in
            ((left_edge + right_edge) / 2)%nat
              :: local_maxima_from x i_max fuel' (i_ahead + 1)
          else local_maxima_from x i_max fuel' (i + 1)
        else local_maxima_from x i_max fuel' (i + 1)
      else []
  end.

(** [i = 1], [i_max = x.shape[0] - 1]. *)
Definition local_maxima_1d (x : list A) : list nat :=
  local_maxima_from x (length x - 1) (length x) 1.
End LocalMaxima.

Definition find_peaks (x : list R) : list nat := local_maxima_1d Rltb Reqb 0%R x.

(** The same detector on integer samples, used to run examples. *)
Definition find_peaks_Z (x : list Z) : list nat := local_maxima_1d Z.ltb Z.eqb 0 x.

(** [np.array(a)[peak_indices]] *)
Definition take_indices {A : Type} (dflt : A) (a : list A) (indices : list nat) : list A :=
  map (fun i => nth i a dflt) indices.

(** [np.argmin]: index of the first occurrence of the minimum; an empty
    sequence raises [ValueError]. *)
Fixpoint argmin_from (best_index : nat) (best : Z) (i : nat) (l : list Z) : nat :=
  match l with
  | [] => best_index
  | v :: l' =>
      if v <? best then argmin_from i v (S i) l'
      else argmin_from best_index best (S i) l'
  end.

Definition argmin (l : list Z) : outcome nat :=
  match l with
  | [] => Raise ValueError
  | v :: l' => Return (argmin_from 0 v 1 l')
  end.

(** ** The module, over an ephemeris provider *)

Section Trajectory.
(** [spice.str2et], applied to the text of a whole second. *)
Variable str2et : Z -> R.
(** [spice.spkpos(target, et, frame, abcorr, observer)], position only;
    [None] when the provider raises. *)
Variable spkpos : string -> R -> string -> string -> string -> option vec3.

Definition query (target : string) (et : R) (frame observer : string) : outcome vec3 :=
  match spkpos target et frame "NONE" observer with
  | Some position => Return position
  | None => Raise SpiceyError
  end.

Definition Get_Heliocentric_Distance (date : datetime) : outcome R :=
  let et := str2et (strftime date) in
  position <- query "MERCURY" et "J2000" "SUN" ;;
  Return (norm position).

Definition Get_Position (spacecraft : string) (date : datetime) : option vec3 :=
  let et := str2et (strftime date) in
  match query spacecraft et "BC_MSO" "MERCURY" with
  | Return position => Some position
  | _ => None
  end.

(** *** Aberrate_Position *)

Definition semi_major_axis : R := 57909050 * 1000.
Definition solar_mass : R := 1.9891e30.
Definition gravitational_constant : R := 6.6743e-11.

(** Lines 172-181: the angle from Mercury's distance to the Sun. *)
Definition aberration_angle_of (mercury_distance : R) : R :=
  let a := semi_major_axis in
  let M := solar_mass in
  let G := gravitational_constant in
  let orbital_velocity := sqrt (G * M * ((2 / mercury_distance) - (1 / a))) in
  let aberration_angle := atan (orbital_velocity / 400000) in
  (aberration_angle * (PI / 180))%R.

Definition rotation_matrix (aberration_angle : R) : vec3 * vec3 * vec3 :=
  (mkVec (cos aberration_angle) (- sin aberration_angle) 0,
   mkVec (sin aberration_angle) (cos aberration_angle) 0,
   mkVec 0 0 1)%R.

Definition dot (row p : vec3) : R :=
  (v0 row * v0 p + v1 row * v1 p + v2 row * v2 p)%R.

Definition matmul (m : vec3 * vec3 * vec3) (p : vec3) : vec3 :=
  let '(r0, r1, r2) := m in
  mkVec (dot r0 p) (dot r1 p) (dot r2 p).

Definition Aberrate_Position (position : vec3) (spice_date : R) : outcome vec3 :=
  mercury_position <- query "MERCURY" spice_date "J2000" "SUN" ;;
  let mercury_distance := norm mercury_position in
  let aberration_angle := aberration_angle_of mercury_distance in
  let rotated_position := matmul (rotation_matrix aberration_angle) position in
  Return rotated_position.

(** *** Get_Trajectory *)

(** [[x * (et_two - et_one) / steps + et_one for x in range(steps)]] *)
Definition sample_epochs (et_one et_two : R) (steps : Z) : list R :=
  map (fun x : nat => (IZR (Z.of_nat x) * (et_two - et_one) / IZR steps + et_one)%R)
      (seq 0 (Z.to_nat steps)).

(** [positions[:, 2] += 479] *)
Definition dipole_shift (p : vec3) : vec3 :=
  mkVec (v0 p) (v1 p) (v2 p + 479)%R.

Definition Get_Trajectory (spacecraft : string) (dates : list datetime)
    (steps : Z) (frame : string) (aberrate : bool) : outcome (list vec3) :=
  match dates with
  | date0 :: date1 :: _ =>
      let et_one := str2et (strftime date0) in
      let et_two := str2et (strftime date1) in
      let times := sample_epochs et_one et_two steps in
      positions <- for_each (fun et => query spacecraft et "BC_MSO" "MERCURY") times ;;
      positions <-
        (if aberrate
         then for_each (fun '(position, et) => Aberrate_Position position et)
                       (combine positions times)
         else Return positions) ;;
      if String.eqb frame "MSO" then Return positions
      else if String.eqb frame "MSM" then
        (* an array without samples has one axis only, and [positions[:, 2]]
           raises [IndexError] on it *)
        match positions with
        | [] => Raise IndexError
        | _ :: _ => Return (map dipole_shift positions)
        end
      else Return positions
  | _ => Raise IndexError
  end.

(** *** Get_Range_From_Date *)

Inductive dates_argument : Type :=
| OneDate (date : datetime)
| DateList (dates : list datetime).

Inductive range_value : Type :=
| Scalar (distance : R)
| Distances (distances : list R).

Definition range_at (spacecraft : string) (date : datetime) : outcome R :=
  let et := str2et (strftime date) in
  position <- query spacecraft et "BC_MSO" "MERCURY" ;;
  Return (norm position).

Definition Get_Range_From_Date (spacecraft : string) (dates : dates_argument)
    : outcome range_value :=
  let dates := match dates with OneDate date => [date] | DateList l => l end in
  distances <- for_each (range_at spacecraft) dates ;;
  match distances with
  | [distance] => Return (Scalar distance)
  | _ => Return (Distances distances)
  end.

(** *** The altitude series shared by both apoapsis searches *)

(** [while current_time < end_time: ...; current_time += time_delta] *)
Fixpoint sample_altitudes (fuel : nat) (spacecraft : string)
    (current_time end_time : datetime) (time_delta : timedelta)
    (altitudes : list R) (times : list datetime)
    : outcome (list R * list datetime) :=
  match fuel with
  | O => OutOfFuel
  | S fuel' =>
      if current_time <? end_time then
        current_altitude <- range_at spacecraft current_time ;;
        sample_altitudes fuel' spacecraft (current_time + time_delta) end_time
          time_delta (altitudes ++ [current_altitude]) (times ++ [current_time])
      else Return (altitudes, times)
  end.

(** One iteration more than the microseconds in the interval: enough for
    every positive [time_delta]. *)
Definition sampling_fuel (start_time end_time : datetime) : nat :=
  S (Z.to_nat (end_time - start_time)).

Definition altitude_series (spacecraft : string) (start_time end_time : datetime)
    (time_delta : timedelta) : outcome (list R * list datetime) :=
  sample_altitudes (sampling_fuel start_time end_time) spacecraft
    start_time end_time time_delta [] [].

(** *** Get_All_Apoapsis_In_Range *)

(** [while len(apoapsis_altitudes) > number_of_orbits_to_include: ...] *)
Fixpoint reduce_apoapsides (fuel : nat) (start_time end_time : datetime)
    (number_of_orbits_to_include : Z)
    (apoapsis_altitudes : list R) (apoapsis_times : list datetime)
    : outcome (list R * list datetime) :=
  match fuel with
  | O => OutOfFuel
  | S fuel' =>
      if number_of_orbits_to_include <? Z.of_nat (length apoapsis_altitudes) then
        let first_apoapsis_time := hd 0 apoapsis_times in
        let last_apoapsis_time := last apoapsis_times 0 in
        let midpoint := start_time + divide_and_round (end_time - start_time) 2 in
        let first_time_difference := Z.abs (first_apoapsis_time - midpoint) in
        let last_time_difference := Z.abs (last_apoapsis_time - midpoint) in
        if last_time_difference <? first_time_difference then
          reduce_apoapsides fuel' start_time end_time number_of_orbits_to_include
            (tl apoapsis_altitudes) (tl apoapsis_times)
        else if first_time_difference <? last_time_difference then
          reduce_apoapsides fuel' start_time end_time number_of_orbits_to_include
            (removelast apoapsis_altitudes) (removelast apoapsis_times)
        else Raise ValueError
      else Return (apoapsis_altitudes, apoapsis_times)
  end.

Definition Get_All_Apoapsis_In_Range (start_time end_time : datetime)
    (time_delta : timedelta) (number_of_orbits_to_include : Z)
    (spacecraft : string) : outcome (list R * list datetime) :=
  '(altitudes, times) <- altitude_series spacecraft start_time end_time time_delta ;;
  let peak_indices := find_peaks altitudes in
  let apoapsis_altitudes := take_indices 0%R altitudes peak_indices in
  let apoapsis_times := take_indices 0 times peak_indices in
  if 0 <? number_of_orbits_to_include then
    reduce_apoapsides (S (length apoapsis_altitudes)) start_time end_time
      number_of_orbits_to_include apoapsis_altitudes apoapsis_times
  else Return (apoapsis_altitudes, apoapsis_times).

(** *** Get_Nearest_Apoapsis *)

Definition Get_Nearest_Apoapsis (time : datetime) (time_delta time_limit : timedelta)
    (spacecraft : string) : outcome (datetime * R) :=
  let search_start := time - time_limit in
  let search_end := time + time_limit in
  '(altitudes, times) <- altitude_series spacecraft search_start search_end time_delta ;;
  let peak_indices := find_peaks altitudes in
  let time_distances := map (fun i => Z.abs (time - nth i times 0)) peak_indices in
  k <- argmin time_distances ;;
  let closest_apoapsis_index := nth k peak_indices O in
  let apoapsis_time := nth closest_apoapsis_index times 0 in
  let apoapsis_altitude := nth closest_apoapsis_index altitudes 0%R in
  Return (apoapsis_time, apoapsis_altitude).
End Trajectory.

(** ** Reference descriptions used in the statements *)

(** [start, start + delta, ...], [n] terms. *)
Fixpoint grid_times (n : nat) (start : datetime) (time_delta : timedelta) : list datetime :=
  match n with
  | O => []
  | S n' => start :: grid_times n' (start + time_delta) time_delta
  end.

(** The number of grid points of step [time_delta] in [[start, end_time)]. *)
Definition sample_count (start end_time : datetime) (time_delta : timedelta) : nat :=
  Z.to_nat ((end_time - start + time_delta - 1) / time_delta).

Definition window_times (start end_time : datetime) (time_delta : timedelta) : list datetime :=
  grid_times (sample_count start end_time time_delta) start time_delta.

(** The result of the reduction loop started with all the fuel it can use. *)
Definition reduction_of (start_time end_time : datetime) (number_of_orbits_to_include : Z)
    (apoapsis_altitudes : list R) (apoapsis_times : list datetime)
    : outcome (list R * list datetime) :=
  reduce_apoapsides (S (length apoapsis_altitudes)) start_time end_time
    number_of_orbits_to_include apoapsis_altitudes apoapsis_times.

Definition interval_midpoint (start_time end_time : datetime) : datetime :=
  start_time + divide_and_round (end_time - start_time) 2.

(** The plane rotation by [angle] about the third axis. *)
Definition rotate_xy (angle : R) (p : vec3) : vec3 :=
  mkVec (cos angle * v0 p - sin angle * v1 p)%R
        (sin angle * v0 p + cos angle * v1 p)%R
        (v2 p).

(** Length of the projection on the plane of rotation. *)
Definition norm_xy (p : vec3) : R := sqrt (v0 p ^ 2 + v1 p ^ 2)%R.

(** ** A synthetic ephemeris for running the functions

    Epochs are the whole seconds themselves, and every body sits on the
    x axis at the distance given by a profile of the epoch. *)

Module Synthetic.
Definition str2et (second : Z) : R := IZR second.

Definition spkpos (profile : Z -> Z)
    (target : string) (et : R) (frame abcorr observer : string) : option vec3 :=
  Some (mkVec (IZR (profile (Int_part et))) 0 0).

(** Maxima 9 h and 13 h after the origin. *)
Definition two_peaks (second : Z) : Z :=
  10 ^ 19 - (second - 32400) ^ 2 * (second - 46800) ^ 2.

(** Maxima 10, 70 and 130 minutes after the origin. *)
Definition three_peaks (second : Z) : Z :=
  10 ^ 23 - ((second - 600) * (second - 4200) * (second - 7800)) ^ 2.

(** High during the second second only. *)
Definition one_bump (second : Z) : Z := if second =? 1 then 1 else 0.

(** High during the third and the sixth second only. *)
Definition two_bumps (second : Z) : Z :=
  if second =? 2 then 1 else if second =? 5 then 1 else 0.

Definition level (second : Z) : Z := 7.

(** A provider with a data gap at every epoch. *)
Definition no_coverage
    (target : string) (et : R) (frame abcorr observer : string) : option vec3 := None.
End Synthetic.

(** * Properties *)

(** ** Comparisons on samples *)

Lemma Rltb_true_iff (a b : R) : Rltb a b = true <-> (a < b)%R.
Proof.
  unfold Rltb; destruct (Rlt_dec a b); split; intros; try assumption;
    try reflexivity; try discriminate; contradiction.
Qed.

Lemma Reqb_true_iff (a b : R) : Reqb a b = true <-> a = b.
Proof.
  unfold Reqb; destruct (Req_dec_T a b); split; intros; try assumption;
    try reflexivity; try discriminate; contradiction.
Qed.

Lemma Rltb_IZR (a b : Z) : Rltb (IZR a) (IZR b) = (a <? b).
Proof.
  destruct (Z.ltb_spec a b) as [H | H].
  - apply Rltb_true_iff, IZR_lt, H.
  - destruct (Rltb (IZR a) (IZR b)) eqn:E; [ | reflexivity].
    apply Rltb_true_iff, lt_IZR in E. lia.
Qed.

Lemma Reqb_IZR (a b : Z) : Reqb (IZR a) (IZR b) = (a =? b).
Proof.
  destruct (Z.eqb_spec a b) as [H | H].
  - apply Reqb_true_iff. now rewrite H.
  - destruct (Reqb (IZR a) (IZR b)) eqn:E; [ | reflexivity].
    apply Reqb_true_iff, eq_IZR in E. contradiction.
Qed.

(** ** Loops over lists *)

Lemma for_each_length {A B : Type} (f : A -> outcome B) (l : list A) (bs : list B) :
  for_each f l = Return bs -> length bs = length l.
Proof.
  revert bs; induction l as [ | a l IH]; simpl; intros bs H.
  - injection H as <-. reflexivity.
  - destruct (f a) as [b | e | ]; simpl in H; try discriminate.
    destruct (for_each f l) as [bs' | e | ]; simpl in H; try discriminate.
    injection H as <-. simpl. now rewrite (IH bs').
Qed.

Lemma for_each_pointwise {A B : Type} (f : A -> outcome B) (g : A -> B) (l : list A) :
  (forall a, In a l -> f a = Return (g a)) -> for_each f l = Return (map g l).
Proof.
  induction l as [ | a l IH]; simpl; intros H; [reflexivity | ].
  rewrite (H a (or_introl eq_refl)). simpl.
  rewrite IH by (intros; apply H; now right). reflexivity.
Qed.

Lemma for_each_nth {A B : Type} (f : A -> outcome B) (l : list A) (bs : list B) :
  for_each f l = Return bs ->
  forall i a, nth_error l i = Some a ->
  exists b, f a = Return b /\ nth_error bs i = Some b.
Proof.
  revert bs; induction l as [ | a0 l IH]; simpl; intros bs H i a Hi.
  - destruct i; discriminate.
  - destruct (f a0) as [b0 | e | ] eqn:E0; simpl in H; try discriminate.
    destruct (for_each f l) as [bs' | e | ]; simpl in H; try discriminate.
    injection H as <-.
    destruct i as [ | i]; simpl in *.
    + injection Hi as <-. now exists b0.
    + apply (IH bs' eq_refl i a Hi).
Qed.


(** ** The sampling grid *)

Lemma sample_count_stop (start end_time time_delta : Z) :
  0 < time_delta -> end_time <= start -> sample_count start end_time time_delta = O.
Proof.
  intros Hd Hle. unfold sample_count.
  assert ((end_time - start + time_delta - 1) / time_delta <= 0); [ | lia].
  assert (H : (end_time - start + time_delta - 1) / time_delta < 1); [ | lia].
  apply Z.div_lt_upper_bound; lia.
Qed.

Lemma sample_count_step (start end_time time_delta : Z) :
  0 < time_delta -> start < end_time ->
  sample_count start end_time time_delta
  = S (sample_count (start + time_delta) end_time time_delta).
Proof.
  intros Hd Hlt. unfold sample_count.
  replace (end_time - start + time_delta - 1)
    with ((end_time - (start + time_delta) + time_delta - 1) + 1 * time_delta) by ring.
  rewrite Z.div_add by lia.
  assert (0 <= (end_time - (start + time_delta) + time_delta - 1) / time_delta)
    by (apply Z.div_pos; lia).
  lia.
Qed.

Lemma window_times_stop (start end_time time_delta : Z) :
  0 < time_delta -> end_time <= start -> window_times start end_time time_delta = [].
Proof.
  intros Hd Hle. unfold window_times. now rewrite sample_count_stop.
Qed.

Lemma window_times_step (start end_time time_delta : Z) :
  0 < time_delta -> start < end_time ->
  window_times start end_time time_delta
  = start :: window_times (start + time_delta) end_time time_delta.
Proof.
  intros Hd Hlt. unfold window_times. now rewrite sample_count_step.
Qed.

Lemma grid_times_length (n : nat) (start time_delta : Z) :
  length (grid_times n start time_delta) = n.
Proof. revert start; induction n; simpl; intros; [reflexivity | now rewrite IHn]. Qed.

Lemma grid_times_nth (n : nat) (start time_delta : Z) (k : nat) :
  (k < n)%nat -> nth k (grid_times n start time_delta) 0 = start + Z.of_nat k * time_delta.
Proof.
  revert start k; induction n as [ | n IH]; intros start k Hk; [lia | ].
  destruct k as [ | k]; cbn [grid_times nth].
  - lia.
  - rewrite IH by lia. lia.
Qed.

Lemma window_times_bounds (start end_time time_delta : Z) (k : nat) :
  0 < time_delta -> (k < sample_count start end_time time_delta)%nat ->
  start <= start + Z.of_nat k * time_delta < end_time.
Proof.
  intros Hd Hk. unfold sample_count in Hk.
  assert (Hq : Z.of_nat k < (end_time - start + time_delta - 1) / time_delta) by lia.
  assert (Hm : time_delta * ((end_time - start + time_delta - 1) / time_delta)
               <= end_time - start + time_delta - 1)
    by (apply Z.mul_div_le; lia).
  nia.
Qed.

Section SamplingLoop.
Variable str2et : Z -> R.
Variable spkpos : string -> R -> string -> string -> string -> option vec3.

(** The sampling loop visits the grid of the window, in order, and stops
    at the first sample the provider cannot resolve. *)
Lemma sample_altitudes_eq (spacecraft : string) (end_time time_delta : Z) :
  0 < time_delta ->
  forall fuel current_time altitudes times,
  (Z.to_nat (end_time - current_time) < fuel)%nat ->
  sample_altitudes str2et spkpos fuel spacecraft current_time end_time time_delta
    altitudes times
  = (sampled <- for_each (range_at str2et spkpos spacecraft)
                  (window_times current_time end_time time_delta) ;;
     Return (altitudes ++ sampled, times ++ window_times current_time end_time time_delta)).
Proof.
  intros Hd. induction fuel as [ | fuel IH]; intros cur alts ts Hf; [lia | ].
  simpl. destruct (Z.ltb_spec cur end_time) as [Hlt | Hge].
  - rewrite window_times_step by assumption. simpl.
    destruct (range_at str2et spkpos spacecraft cur) as [a | e | ]; simpl; try reflexivity.
    rewrite IH by lia.
    destruct (for_each _ _) as [bs | e | ]; simpl; try reflexivity.
    now rewrite <- !app_assoc.
  - rewrite window_times_stop by assumption. simpl. now rewrite !app_nil_r.
Qed.

Lemma altitude_series_eq (spacecraft : string) (start_time end_time time_delta : Z) :
  0 < time_delta ->
  altitude_series str2et spkpos spacecraft start_time end_time time_delta
  = (sampled <- for_each (range_at str2et spkpos spacecraft)
                  (window_times start_time end_time time_delta) ;;
     Return (sampled, window_times start_time end_time time_delta)).
Proof.
  intros Hd. unfold altitude_series, sampling_fuel.
  rewrite sample_altitudes_eq by (assumption || lia). reflexivity.
Qed.

Lemma altitude_series_inv (spacecraft : string) (start_time end_time time_delta : Z)
    (altitudes : list R) (times : list Z) :
  0 < time_delta ->
  altitude_series str2et spkpos spacecraft start_time end_time time_delta
    = Return (altitudes, times) ->
  times = window_times start_time end_time time_delta
  /\ for_each (range_at str2et spkpos spacecraft) times = Return altitudes.
Proof.
  intros Hd H. rewrite altitude_series_eq in H by assumption.
  destruct (for_each _ _) as [bs | e | ] eqn:E; simpl in H; try discriminate.
  injection H as <- <-. split; [reflexivity | exact E].
Qed.
End SamplingLoop.

(** ** The peak detector *)

Section LocalMaximaFacts.
Context {A : Type} (ltb eqb : A -> A -> bool) (dflt : A).

Lemma plateau_end_ge (x : list A) (xi : A) (i_max fuel i_ahead : nat) :
  (i_ahead <= plateau_end eqb dflt x xi i_max fuel i_ahead)%nat.
Proof.
  revert i_ahead; induction fuel as [ | fuel IH]; intros i_ahead; simpl; [lia | ].
  destruct ((i_ahead <? i_max)%nat && eqb (nth i_ahead x dflt) xi); [ | lia].
  specialize (IH (S i_ahead)). lia.
Qed.

Lemma plateau_end_le (x : list A) (xi : A) (i_max fuel i_ahead : nat) :
  (i_ahead <= i_max)%nat ->
  (plateau_end eqb dflt x xi i_max fuel i_ahead <= i_max)%nat.
Proof.
  revert i_ahead; induction fuel as [ | fuel IH]; intros i_ahead Hle; simpl; [lia | ].
  destruct (Nat.ltb_spec i_ahead i_max) as [Hlt | Hge]; simpl; [ | lia].
  destruct (eqb (nth i_ahead x dflt) xi); [ | lia].
  apply IH. lia.
Qed.

Lemma plateau_end_equal (x : list A) (xi : A) (i_max fuel i_ahead j : nat) :
  (i_ahead <= j < plateau_end eqb dflt x xi i_max fuel i_ahead)%nat ->
  eqb (nth j x dflt) xi = true.
Proof.
  revert i_ahead; induction fuel as [ | fuel IH]; intros i_ahead Hj; simpl in Hj; [lia | ].
  destruct ((i_ahead <? i_max)%nat && eqb (nth i_ahead x dflt) xi) eqn:E; [ | lia].
  apply andb_true_iff in E as [_ E].
  destruct (Nat.eq_dec j i_ahead) as [-> | Hne]; [exact E | ].
  apply (IH (S i_ahead)). lia.
Qed.

(** With the fuel the detector grants, the inner loop stops only where the
    source's loop does. *)
Lemma plateau_end_stops (x : list A) (xi : A) (i_max fuel i_ahead : nat) :
  (i_max - i_ahead <= fuel)%nat ->
  let e := plateau_end eqb dflt x xi i_max fuel i_ahead in
  (e < i_max)%nat -> eqb (nth e x dflt) xi = false.
Proof.
  revert i_ahead; induction fuel as [ | fuel IH]; intros i_ahead Hf; simpl; [lia | ].
  destruct (Nat.ltb_spec i_ahead i_max) as [Hlt | Hge]; simpl; [ | lia].
  destruct (eqb (nth i_ahead x dflt) xi) eqn:E; [ | intros _; exact E].
  apply IH. lia.
Qed.

Lemma plateau_end_fuel (x : list A) (xi : A) (i_max fuel fuel' i_ahead : nat) :
  (i_max - i_ahead <= fuel)%nat -> (i_max - i_ahead <= fuel')%nat ->
  plateau_end eqb dflt x xi i_max fuel i_ahead
  = plateau_end eqb dflt x xi i_max fuel' i_ahead.
Proof.
  revert fuel' i_ahead; induction fuel as [ | fuel IH]; intros fuel' i_ahead Hf Hf'.
  - destruct fuel' as [ | fuel']; simpl; [reflexivity | ].
    destruct (Nat.ltb_spec i_ahead i_max); [lia | reflexivity].
  - destruct fuel' as [ | fuel']; simpl.
    + destruct (Nat.ltb_spec i_ahead i_max); [lia | reflexivity].
    + destruct ((i_ahead <? i_max)%nat && eqb (nth i_ahead x dflt) xi); [ | reflexivity].
      apply IH; lia.
Qed.

(** Every index the detector records is the middle of a run of equal
    samples that starts after a strict rise and ends before a strict
    fall. *)
Lemma local_maxima_from_sound (x : list A) (i_max : nat) :
  forall fuel i p,
  In p (local_maxima_from ltb eqb dflt x i_max fuel i) ->
  exists l r : nat,
    (i <= l)%nat /\ (l <= r)%nat /\ (r < i_max)%nat /\ p = ((l + r) / 2)%nat
    /\ ltb (nth (l - 1) x dflt) (nth l x dflt) = true
    /\ (forall j, (l < j <= r)%nat -> eqb (nth j x dflt) (nth l x dflt) = true)
    /\ ltb (nth (r + 1) x dflt) (nth l x dflt) = true.
Proof.
  induction fuel as [ | fuel IH]; intros i p Hp; simpl in Hp; [contradiction | ].
  destruct (Nat.ltb_spec i i_max) as [Hlt | Hge]; [ | contradiction].
  destruct (ltb (nth (i - 1) x dflt) (nth i x dflt)) eqn:Hrise.
  - set (e := plateau_end eqb dflt x (nth i x dflt) i_max i_max (i + 1)) in *.
    assert (He1 : (i + 1 <= e)%nat) by apply plateau_end_ge.
    assert (He2 : (e <= i_max)%nat) by (apply plateau_end_le; lia).
    destruct (ltb (nth e x dflt) (nth i x dflt)) eqn:Hfall.
    + destruct Hp as [<- | Hp].
      * exists i, (e - 1)%nat. repeat split; try lia; try assumption.
        -- intros j Hj. apply (plateau_end_equal x (nth i x dflt) i_max i_max (i + 1)).
           fold e. lia.
        -- replace (e - 1 + 1)%nat with e by lia. exact Hfall.
      * destruct (IH _ _ Hp) as (l & r & H1 & H2 & H3 & H4 & H5 & H6 & H7).
        exists l, r. repeat split; try lia; assumption.
    + destruct (IH _ _ Hp) as (l & r & H1 & H2 & H3 & H4 & H5 & H6 & H7).
      exists l, r. repeat split; try lia; assumption.
  - destruct (IH _ _ Hp) as (l & r & H1 & H2 & H3 & H4 & H5 & H6 & H7).
    exists l, r. repeat split; try lia; assumption.
Qed.

(** The fuel of [local_maxima_1d] is never used up: more of it changes
    nothing. *)
Lemma local_maxima_from_fuel (x : list A) (i_max : nat) :
  forall fuel fuel' i,
  (i_max - i <= fuel)%nat -> (i_max - i <= fuel')%nat ->
  local_maxima_from ltb eqb dflt x i_max fuel i
  = local_maxima_from ltb eqb dflt x i_max fuel' i.
Proof.
  induction fuel as [ | fuel IH]; intros fuel' i Hf Hf'.
  - destruct fuel' as [ | fuel']; simpl; [reflexivity | ].
    destruct (Nat.ltb_spec i i_max); [lia | reflexivity].
  - destruct fuel' as [ | fuel']; simpl.
    + destruct (Nat.ltb_spec i i_max); [lia | reflexivity].
    + destruct (Nat.ltb_spec i i_max) as [Hlt | Hge]; [ | reflexivity].
      pose proof (plateau_end_ge x (nth i x dflt) i_max i_max (i + 1)) as He.
      destruct (ltb (nth (i - 1) x dflt) (nth i x dflt)); [ | apply IH; lia].
      destruct (ltb _ _); [f_equal | ]; apply IH; lia.
Qed.

Lemma local_maxima_1d_fuel (x : list A) (fuel : nat) :
  (length x <= fuel)%nat ->
  local_maxima_from ltb eqb dflt x (length x - 1) fuel 1 = local_maxima_1d ltb eqb dflt x.
Proof. intros H. unfold local_maxima_1d. apply local_maxima_from_fuel; lia. Qed.
End LocalMaximaFacts.

(** The detector only compares samples, so it commutes with every map that
    preserves the comparisons. *)
Section LocalMaximaTransfer.
Context {A B : Type} (ltbA eqbA : A -> A -> bool) (dA : A).
Context (ltbB eqbB : B -> B -> bool) (dB : B) (f : A -> B).
Hypothesis f_dflt : f dA = dB.
Hypothesis f_ltb : forall a b, ltbB (f a) (f b) = ltbA a b.
Hypothesis f_eqb : forall a b, eqbB (f a) (f b) = eqbA a b.

Lemma nth_map_dflt (x : list A) (i : nat) : nth i (map f x) dB = f (nth i x dA).
Proof. rewrite <- f_dflt. apply map_nth. Qed.

Lemma plateau_end_map (x : list A) (xi : A) (i_max fuel i_ahead : nat) :
  plateau_end eqbB dB (map f x) (f xi) i_max fuel i_ahead
  = plateau_end eqbA dA x xi i_max fuel i_ahead.
Proof.
  revert i_ahead; induction fuel as [ | fuel IH]; intros i_ahead; simpl; [reflexivity | ].
  rewrite nth_map_dflt, f_eqb, IH. reflexivity.
Qed.

Lemma local_maxima_from_map (x : list A) (i_max fuel i : nat) :
  local_maxima_from ltbB eqbB dB (map f x) i_max fuel i
  = local_maxima_from ltbA eqbA dA x i_max fuel i.
Proof.
  revert i; induction fuel as [ | fuel IH]; intros i; simpl; [reflexivity | ].
  rewrite !nth_map_dflt, plateau_end_map, !f_ltb, !IH. reflexivity.
Qed.

Lemma local_maxima_1d_map (x : list A) :
  local_maxima_1d ltbB eqbB dB (map f x) = local_maxima_1d ltbA eqbA dA x.
Proof. unfold local_maxima_1d. rewrite length_map. apply local_maxima_from_map. Qed.
End LocalMaximaTransfer.

Lemma find_peaks_IZR (x : list Z) : find_peaks (map IZR x) = find_peaks_Z x.
Proof.
  unfold find_peaks, find_peaks_Z.
  apply (local_maxima_1d_map Z.ltb Z.eqb 0 Rltb Reqb 0%R IZR eq_refl Rltb_IZR Reqb_IZR).
Qed.

(** What a detected peak looks like in the series. *)
Lemma find_peaks_plateau (x : list R) (p : nat) :
  In p (find_peaks x) ->
  exists l r : nat,
    (1 <= l)%nat /\ (l <= p)%nat /\ (p <= r)%nat /\ (r + 1 < length x)%nat
    /\ p = ((l + r) / 2)%nat
    /\ (nth (l - 1) x 0 < nth p x 0)%R
    /\ (forall j, (l <= j <= r)%nat -> nth j x 0%R = nth p x 0%R)
    /\ (nth (r + 1) x 0 < nth p x 0)%R.
Proof.
  intros Hp. unfold find_peaks, local_maxima_1d in Hp.
  destruct (local_maxima_from_sound _ _ _ _ _ _ _ _ Hp)
    as (l & r & H1 & H2 & H3 & H4 & H5 & H6 & H7).
  assert (Hlp : (l <= p)%nat).
  { subst p. apply Nat.div_le_lower_bound; lia. }
  assert (Hpr : (p <= r)%nat).
  { subst p. apply Nat.Div0.div_le_upper_bound. lia. }
  assert (Heq : forall j, (l <= j <= r)%nat -> nth j x 0%R = nth l x 0%R).
  { intros j Hj. destruct (Nat.eq_dec j l) as [-> | Hne]; [reflexivity | ].
    apply Reqb_true_iff, H6. lia. }
  assert (Hpl : nth p x 0%R = nth l x 0%R) by (apply Heq; lia).
  exists l, r. rewrite Hpl. repeat split; try lia.
  - now apply Rltb_true_iff.
  - exact Heq.
  - now apply Rltb_true_iff.
Qed.

(** ** The minimum search *)

Lemma argmin_from_spec (l : list Z) :
  forall best_index best i,
  let k := argmin_from best_index best i l in
  (k = best_index /\ forall j, (j < length l)%nat -> best <= nth j l 0)
  \/ (exists j, (j < length l)%nat /\ k = (i + j)%nat /\ nth j l 0 < best
        /\ (forall j', (j' < length l)%nat -> nth j l 0 <= nth j' l 0)
        /\ (forall j', (j' < j)%nat -> nth j l 0 < nth j' l 0)).
Proof.
  induction l as [ | v l IH]; intros bi b i; simpl.
  - left. split; [reflexivity | intros; lia].
  - destruct (Z.ltb_spec v b) as [Hlt | Hge].
    + right. destruct (IH i v (S i)) as [[Hk Hmin] | (j & Hj & Hk & Hv & Hmin & Hfirst)].
      * exists O. repeat split; try lia.
        intros [ | j'] Hj'; [lia | ]. apply Hmin. lia.
      * exists (S j). repeat split; try lia.
        -- intros [ | j'] Hj'; [lia | ]. apply Hmin. lia.
        -- intros [ | j'] Hj'; [exact Hv | ]. apply Hfirst. lia.
    + destruct (IH bi b (S i)) as [[Hk Hmin] | (j & Hj & Hk & Hv & Hmin & Hfirst)].
      * left. split; [exact Hk | ].
        intros [ | j'] Hj'; [lia | ]. apply Hmin. lia.
      * right. exists (S j). repeat split; try lia.
        -- intros [ | j'] Hj'; [lia | ]. apply Hmin. lia.
        -- intros [ | j'] Hj'; [lia | ]. apply Hfirst. lia.
Qed.

Lemma argmin_spec (l : list Z) (k : nat) :
  argmin l = Return k ->
  (k < length l)%nat
  /\ (forall j, (j < length l)%nat -> nth k l 0 <= nth j l 0)
  /\ (forall j, (j < k)%nat -> nth k l 0 < nth j l 0).
Proof.
  destruct l as [ | v l]; simpl; intros H; [discriminate | ].
  injection H as <-.
  destruct (argmin_from_spec l 0 v 1) as [[-> Hmin] | (j & Hj & -> & Hv & Hmin & Hfirst)].
  - repeat split; try lia.
    intros [ | j] Hj; [lia | ]. apply Hmin. lia.
  - change (1 + j)%nat with (S j). repeat split; try lia.
    + intros [ | j'] Hj'; [lia | ]. apply Hmin. lia.
    + intros [ | j'] Hj'; [exact Hv | ]. apply Hfirst. lia.
Qed.

Lemma argmin_nonempty (l : list Z) : l <> [] -> exists k, argmin l = Return k.
Proof. destruct l as [ | v l]; [contradiction | intros _; simpl; eauto]. Qed.

(** ** The reduction loop *)

Lemma removelast_length {A : Type} (l : list A) : length (removelast l) = (length l - 1)%nat.
Proof.
  rewrite removelast_firstn_len, length_firstn. lia.
Qed.

Lemma reduce_apoapsides_fuel (start_time end_time n : Z) :
  0 <= n ->
  forall fuel fuel' altitudes times,
  (length altitudes < fuel)%nat -> (length altitudes < fuel')%nat ->
  reduce_apoapsides fuel start_time end_time n altitudes times
  = reduce_apoapsides fuel' start_time end_time n altitudes times.
Proof.
  intros Hn. induction fuel as [ | fuel IH]; intros fuel' a t Hf Hf'; [lia | ].
  destruct fuel' as [ | fuel']; [lia | ]. simpl.
  destruct (Z.ltb_spec n (Z.of_nat (length a))) as [Hlt | Hge]; [ | reflexivity].
  destruct (_ <? _).
  - apply IH; rewrite length_tl; lia.
  - destruct (_ <? _); [ | reflexivity].
    apply IH; rewrite removelast_length; lia.
Qed.

(** The loop, one iteration at a time, whatever fuel it was given. *)
Lemma reduction_of_unfold (start_time end_time n : Z) (altitudes : list R) (times : list Z) :
  0 <= n ->
  reduction_of start_time end_time n altitudes times
  = if n <? Z.of_nat (length altitudes) then
      let midpoint := interval_midpoint start_time end_time in
      let first_time_difference := Z.abs (hd 0 times - midpoint) in
      let last_time_difference := Z.abs (last times 0 - midpoint) in
      if last_time_difference <? first_time_difference then
        reduction_of start_time end_time n (tl altitudes) (tl times)
      else if first_time_difference <? last_time_difference then
        reduction_of start_time end_time n (removelast altitudes) (removelast times)
      else Raise ValueError
    else Return (altitudes, times).
Proof.
  intros Hn. unfold reduction_of at 1. cbn [reduce_apoapsides].
  fold (interval_midpoint start_time end_time).
  destruct (Z.ltb_spec n (Z.of_nat (length altitudes))) as [Hlt | Hge]; [ | reflexivity].
  cbv zeta. destruct (_ <? _).
  - apply reduce_apoapsides_fuel; rewrite ?length_tl; lia.
  - destruct (_ <? _); [ | reflexivity].
    apply reduce_apoapsides_fuel; rewrite ?removelast_length; lia.
Qed.

Lemma reduce_apoapsides_finishes (start_time end_time n : Z) :
  0 <= n ->
  forall fuel altitudes times,
  (length altitudes < fuel)%nat ->
  reduce_apoapsides fuel start_time end_time n altitudes times <> OutOfFuel.
Proof.
  intros Hn. induction fuel as [ | fuel IH]; intros a t Hf; [lia | ]. simpl.
  destruct (Z.ltb_spec n (Z.of_nat (length a))) as [Hlt | Hge]; [ | discriminate].
  destruct (_ <? _).
  - apply IH; rewrite length_tl; lia.
  - destruct (_ <? _); [ | discriminate].
    apply IH; rewrite removelast_length; lia.
Qed.

Lemma divide_and_round_even (a : Z) : Z.even a = true -> 2 * divide_and_round a 2 = a.
Proof.
  intros He. unfold divide_and_round.
  assert (Hm : a mod 2 = 0).
  { rewrite Zmod_even, He. reflexivity. }
  rewrite Hm. change (2 * 0) with 0.
  cbn [Z.ltb Z.eqb Z.compare Pos.compare orb andb].
  pose proof (Z.div_mod a 2). lia.
Qed.

Lemma removelast_map {A B : Type} (f : A -> B) (l : list A) :
  removelast (map f l) = map f (removelast l).
Proof.
  induction l as [ | a l IH]; [reflexivity | ].
  destruct l as [ | b l]; [reflexivity | ].
  cbn [map removelast] in *. now rewrite IH.
Qed.

(** ** The synthetic ephemeris *)

Lemma norm_on_axis (h : Z) : 0 <= h -> norm (mkVec (IZR h) 0 0) = IZR h.
Proof.
  intros Hh. unfold norm. cbn [v0 v1 v2].
  replace (IZR h ^ 2 + 0 ^ 2 + 0 ^ 2)%R with (IZR h * IZR h)%R by ring.
  apply sqrt_square, IZR_le, Hh.
Qed.

Lemma Int_part_IZR (z : Z) : Int_part (IZR z) = z.
Proof. symmetry. apply Int_part_spec. lra. Qed.

Lemma synthetic_range_at (profile : Z -> Z) (spacecraft : string) (date : Z) :
  0 <= profile (strftime date) ->
  range_at Synthetic.str2et (Synthetic.spkpos profile) spacecraft date
  = Return (IZR (profile (strftime date))).
Proof.
  intros Hp. unfold range_at, query, Synthetic.spkpos, Synthetic.str2et. cbn [bind].
  rewrite Int_part_IZR, norm_on_axis by assumption. reflexivity.
Qed.

Lemma synthetic_altitude_series (profile : Z -> Z) (spacecraft : string)
    (start_time end_time time_delta : Z) :
  0 < time_delta ->
  forallb (fun t => 0 <=? profile (strftime t))
          (window_times start_time end_time time_delta) = true ->
  altitude_series Synthetic.str2et (Synthetic.spkpos profile) spacecraft
    start_time end_time time_delta
  = Return (map IZR (map (fun t => profile (strftime t))
                         (window_times start_time end_time time_delta)),
            window_times start_time end_time time_delta).
Proof.
  intros Hd Hall. rewrite altitude_series_eq by assumption.
  rewrite map_map.
  rewrite (for_each_pointwise _ (fun t => IZR (profile (strftime t)))); [reflexivity | ].
  intros t Ht. apply synthetic_range_at.
  rewrite forallb_forall in Hall. apply Z.leb_le, Hall, Ht.
Qed.

(** ** Aberration and trajectories *)

Section TrajectoryFacts.
Variable str2et : Z -> R.
Variable spkpos : string -> R -> string -> string -> string -> option vec3.

Open Scope R_scope.

Lemma matmul_rotation (angle : R) (p : vec3) :
  matmul (rotation_matrix angle) p = rotate_xy angle p.
Proof.
  unfold matmul, rotation_matrix, dot, rotate_xy. cbn [v0 v1 v2].
  f_equal; ring.
Qed.

Lemma Aberrate_Position_eq (position : vec3) (spice_date : R) :
  Aberrate_Position spkpos position spice_date
  = match spkpos "MERCURY" spice_date "J2000" "NONE" "SUN" with
    | Some mercury_position =>
        Return (rotate_xy (aberration_angle_of (norm mercury_position)) position)
    | None => Raise SpiceyError
    end.
Proof.
  unfold Aberrate_Position, query.
  destruct (spkpos _ _ _ _ _); cbn [bind]; [ | reflexivity].
  now rewrite matmul_rotation.
Qed.

(** C1.  Whenever the provider resolves Mercury at the epoch, the angle
    used by [Aberrate_Position] is [atan (v / 400000) * (PI / 180)] with
    [v = sqrt (G * M * (2 / r - 1 / a))], [r] the length of the
    Sun-to-Mercury vector, and the function returns the input rotated in
    the x-y plane by exactly that angle. *)
Theorem Aberrate_Position_angle (position mercury_position : vec3) (spice_date : R) :
  spkpos "MERCURY" spice_date "J2000" "NONE" "SUN" = Some mercury_position ->
  let r := sqrt (v0 mercury_position ^ 2 + v1 mercury_position ^ 2
                 + v2 mercury_position ^ 2) in
  let a := 57909050 * 1000 in
  let M := 1.9891e30 in
  let G := 6.6743e-11 in
  let v := sqrt (G * M * (2 / r - 1 / a)) in
  let angle := atan (v / 400000) * (PI / 180) in
  aberration_angle_of (norm mercury_position) = angle
  /\ Aberrate_Position spkpos position spice_date
     = Return (mkVec (cos angle * v0 position - sin angle * v1 position)
                     (sin angle * v0 position + cos angle * v1 position)
                     (v2 position)).
Proof.
  intros Hm r a M G v angle. split; [reflexivity | ].
  rewrite Aberrate_Position_eq, Hm. reflexivity.
Qed.

(** The scaling by [PI / 180] matters: it makes the angle strictly
    smaller than the arctangent whenever the orbital velocity is
    positive. *)
Lemma aberration_angle_scaled_down (mercury_distance : R) :
  0 < 2 / mercury_distance - 1 / semi_major_axis ->
  aberration_angle_of mercury_distance
  < atan (sqrt (gravitational_constant * solar_mass
                * (2 / mercury_distance - 1 / semi_major_axis)) / 400000).
Proof.
  intros Hpos. unfold aberration_angle_of. cbv zeta.
  set (v := sqrt _).
  assert (Hv : 0 < v).
  { apply sqrt_lt_R0. apply Rmult_lt_0_compat; [ | exact Hpos].
    unfold gravitational_constant, solar_mass. lra. }
  assert (Ha : 0 < atan (v / 400000)).
  { rewrite <- atan_0. apply atan_increasing. apply Rdiv_lt_0_compat; lra. }
  pose proof PI_4. pose proof PI_RGT_0.
  assert (PI / 180 < 1) by lra.
  nra.
Qed.

(** C8.  Whenever the provider resolves Mercury at the epoch,
    [Aberrate_Position] returns a position whose third component is the
    input's third component. *)
Theorem Aberrate_Position_keeps_z (position mercury_position : vec3) (spice_date : R) :
  spkpos "MERCURY" spice_date "J2000" "NONE" "SUN" = Some mercury_position ->
  exists rotated_position,
    Aberrate_Position spkpos position spice_date = Return rotated_position
    /\ v2 rotated_position = v2 position.
Proof.
  intros Hm. rewrite Aberrate_Position_eq, Hm.
  eexists; split; [reflexivity | reflexivity].
Qed.

Lemma rotate_xy_norm (angle : R) (p : vec3) : norm_xy (rotate_xy angle p) = norm_xy p.
Proof.
  unfold norm_xy, rotate_xy. cbn [v0 v1 v2]. f_equal.
  pose proof (sin2_cos2 angle) as H. unfold Rsqr in H.
  replace ((cos angle * v0 p - sin angle * v1 p) ^ 2
           + (sin angle * v0 p + cos angle * v1 p) ^ 2)
    with ((sin angle * sin angle + cos angle * cos angle) * (v0 p ^ 2 + v1 p ^ 2))
    by ring.
  rewrite H. ring.
Qed.

(** C9.  Whenever the provider resolves Mercury at the epoch, the
    position [Aberrate_Position] returns has the same length in the x-y
    plane as the input, and the same length in space. *)
Theorem Aberrate_Position_isometry (position mercury_position : vec3) (spice_date : R) :
  spkpos "MERCURY" spice_date "J2000" "NONE" "SUN" = Some mercury_position ->
  exists rotated_position,
    Aberrate_Position spkpos position spice_date = Return rotated_position
    /\ sqrt (v0 rotated_position ^ 2 + v1 rotated_position ^ 2)
       = sqrt (v0 position ^ 2 + v1 position ^ 2)
    /\ norm rotated_position = norm position.
Proof.
  intros Hm. rewrite Aberrate_Position_eq, Hm.
  eexists; split; [reflexivity | ].
  pose proof (rotate_xy_norm (aberration_angle_of (norm mercury_position)) position) as H.
  unfold norm_xy in H. split; [exact H | ].
  unfold norm, rotate_xy. cbn [v0 v1 v2]. f_equal.
  pose proof (sin2_cos2 (aberration_angle_of (norm mercury_position))) as H2.
  unfold Rsqr in H2.
  set (c := cos _) in *. set (s := sin _) in *.
  replace ((c * v0 position - s * v1 position) ^ 2
           + (s * v0 position + c * v1 position) ^ 2 + v2 position ^ 2)
    with ((s * s + c * c) * (v0 position ^ 2 + v1 position ^ 2) + v2 position ^ 2)
    by ring.
  rewrite H2. ring.
Qed.
End TrajectoryFacts.

(** ** The trajectory sampler *)

Lemma sample_epochs_length (et_one et_two : R) (steps : Z) :
  length (sample_epochs et_one et_two steps) = Z.to_nat steps.
Proof. unfold sample_epochs. now rewrite length_map, length_seq. Qed.



Section SamplerFacts.
Variable str2et : Z -> R.
Variable spkpos : string -> R -> string -> string -> string -> option vec3.

Lemma Get_Trajectory_eq (spacecraft : string) (date0 date1 : Z)
    (steps : Z) (frame : string) (aberrate : bool) :
  Get_Trajectory str2et spkpos spacecraft [date0; date1] steps frame aberrate
  = (let times := sample_epochs (str2et (strftime date0)) (str2et (strftime date1)) steps in
     positions <- for_each (fun et => query spkpos spacecraft et "BC_MSO" "MERCURY") times ;;
     positions <-
       (if aberrate
        then for_each (fun '(position, et) => Aberrate_Position spkpos position et)
                      (combine positions times)
        else Return positions) ;;
     if String.eqb frame "MSM"
     then match positions with
          | [] => Raise IndexError
          | _ :: _ => Return (map dipole_shift positions)
          end
     else Return positions).
Proof.
  unfold Get_Trajectory. cbv zeta.
  destruct (for_each _ _) as [ps | e | ]; cbn [bind]; try reflexivity.
  destruct aberrate; cbn [bind].
  - destruct (for_each _ _) as [qs | e | ]; cbn [bind]; try reflexivity.
    destruct (String.eqb_spec frame "MSO") as [-> | H]; [reflexivity | ].
    destruct (String.eqb frame "MSM"); reflexivity.
  - destruct (String.eqb_spec frame "MSO") as [-> | H]; [reflexivity | ].
    destruct (String.eqb frame "MSM"); reflexivity.
Qed.

Lemma shifted_length (frame : string) (positions trajectory : list vec3) :
  (if String.eqb frame "MSM"
   then match positions with
        | [] => Raise IndexError
        | _ :: _ => Return (map dipole_shift positions)
        end
   else Return positions) = Return trajectory ->
  length trajectory = length positions.
Proof.
  destruct (String.eqb frame "MSM"); [destruct positions | ]; intros H;
    try discriminate; injection H as <-; cbn [map length]; now rewrite ?length_map.
Qed.


Lemma nonempty_of_length {A : Type} (l : list A) (steps : Z) :
  1 <= steps -> length l = Z.to_nat steps -> l <> [].
Proof. intros Hs Hl ->. cbn [length] in Hl. lia. Qed.

Lemma Get_Trajectory_length (spacecraft : string) (date0 date1 : Z)
    (steps : Z) (frame : string) (aberrate : bool) (trajectory : list vec3) :
  Get_Trajectory str2et spkpos spacecraft [date0; date1] steps frame aberrate
    = Return trajectory ->
  length trajectory = Z.to_nat steps.
Proof.
  rewrite Get_Trajectory_eq. cbv zeta.
  destruct (for_each _ _) as [ps | e | ] eqn:E1; cbn [bind]; try discriminate.
  apply for_each_length in E1. rewrite sample_epochs_length in E1.
  destruct aberrate; cbn [bind].
  - destruct (for_each _ _) as [qs | e | ] eqn:E2; cbn [bind]; try discriminate.
    apply for_each_length in E2.
    rewrite length_combine, sample_epochs_length, E1, Nat.min_id in E2.
    intros H. apply shifted_length in H. congruence.
  - intros H. apply shifted_length in H. congruence.
Qed.



(** C7.  For [steps >= 1] the MSM trajectory is the MSO trajectory with
    479 added to the third component of every sample and the first two
    components kept, failures included; with aberration the shift is
    applied to the output of [Aberrate_Position].  Without samples
    ([steps <= 0]) the MSM request raises [IndexError] where the MSO request
    returns the empty trajectory. *)
Theorem Get_Trajectory_dipole_shift (spacecraft : string) (dates : list Z)
    (steps : Z) (aberrate : bool) :
  (1 <= steps ->
   Get_Trajectory str2et spkpos spacecraft dates steps "MSM" aberrate
   = fmap (map (fun p => mkVec (v0 p) (v1 p) (v2 p + 479)%R))
          (Get_Trajectory str2et spkpos spacecraft dates steps "MSO" aberrate))
  /\ (1 <= steps ->
      Get_Trajectory str2et spkpos spacecraft dates steps "MSM" true
      = match dates with
        | date0 :: date1 :: _ =>
            let times :=
              sample_epochs (str2et (strftime date0)) (str2et (strftime date1)) steps in
            positions <-
              for_each (fun et => query spkpos spacecraft et "BC_MSO" "MERCURY") times ;;
            aberrated_positions <-
              for_each (fun '(position, et) => Aberrate_Position spkpos position et)
                       (combine positions times) ;;
            Return (map (fun p => mkVec (v0 p) (v1 p) (v2 p + 479)%R) aberrated_positions)
        | _ => Raise IndexError
        end)
  /\ Get_Trajectory str2et spkpos spacecraft dates steps "MSM" aberrate
     = (positions <- Get_Trajectory str2et spkpos spacecraft dates steps "MSO" aberrate ;;
        match positions with
        | [] => Raise IndexError
        | _ :: _ => Return (map (fun p => mkVec (v0 p) (v1 p) (v2 p + 479)%R) positions)
        end).
Proof.
  assert (Hgen : Get_Trajectory str2et spkpos spacecraft dates steps "MSM" aberrate
                 = (positions <- Get_Trajectory str2et spkpos spacecraft dates steps
                                   "MSO" aberrate ;;
                    match positions with
                    | [] => Raise IndexError
                    | _ :: _ => Return (map dipole_shift positions)
                    end)).
  { unfold Get_Trajectory.
    destruct dates as [ | date0 [ | date1 dates]]; try reflexivity.
    cbv zeta. destruct (for_each _ _) as [ps | e | ]; cbn [bind]; try reflexivity.
    destruct aberrate; cbn [bind]; [ | reflexivity].
    destruct (for_each _ _) as [qs | e | ]; cbn [bind]; reflexivity. }
  assert (Hlen : forall dates' flag positions,
            dates' = dates ->
            Get_Trajectory str2et spkpos spacecraft dates' steps "MSO" flag
              = Return positions ->
            1 <= steps -> positions <> []).
  { intros dates' flag positions <- H Hs.
    destruct dates' as [ | date0 [ | date1 more]]; try discriminate.
    change (Get_Trajectory str2et spkpos spacecraft [date0; date1] steps "MSO" flag
            = Return positions) in H.
    apply Get_Trajectory_length in H. now apply (nonempty_of_length _ steps). }
  split; [ | split; [ | exact Hgen]].
  - intros Hs. rewrite Hgen. unfold fmap.
    destruct (Get_Trajectory str2et spkpos spacecraft dates steps "MSO" aberrate)
      as [ps | e | ] eqn:E; cbn [bind]; try reflexivity.
    destruct ps as [ | p ps]; [ | reflexivity].
    exfalso. now apply (Hlen dates aberrate [] eq_refl E Hs).
  - intros Hs.
    destruct dates as [ | date0 [ | date1 more]]; try reflexivity.
    change (Get_Trajectory str2et spkpos spacecraft (date0 :: date1 :: more) steps "MSM" true)
      with (Get_Trajectory str2et spkpos spacecraft [date0; date1] steps "MSM" true).
    rewrite Get_Trajectory_eq. cbv zeta.
    destruct (for_each _ _) as [ps | e | ] eqn:E1; cbn [bind]; try reflexivity.
    destruct (for_each _ (combine _ _)) as [qs | e | ] eqn:E2; cbn [bind]; try reflexivity.
    change (("MSM" =? "MSM")%string) with true. cbv iota.
    destruct qs as [ | q qs]; [ | reflexivity].
    exfalso. apply for_each_length in E1, E2.
    rewrite length_combine, sample_epochs_length in E2.
    rewrite sample_epochs_length in E1. cbn [length] in E2. lia.
Qed.

(** C10.  A single datetime, or a list holding one datetime, yields a
    bare distance; a list of two or more datetimes yields the list of
    their distances, one per date and in the order of the dates. *)
Theorem Get_Range_From_Date_shape (spacecraft : string) :
  (forall date distance,
     range_at str2et spkpos spacecraft date = Return distance ->
     Get_Range_From_Date str2et spkpos spacecraft (OneDate date) = Return (Scalar distance)
     /\ Get_Range_From_Date str2et spkpos spacecraft (DateList [date])
        = Return (Scalar distance))
  /\ (forall dates distances,
        (2 <= length dates)%nat ->
        for_each (range_at str2et spkpos spacecraft) dates = Return distances ->
        Get_Range_From_Date str2et spkpos spacecraft (DateList dates)
          = Return (Distances distances)
        /\ length distances = length dates
        /\ forall i date, nth_error dates i = Some date ->
             exists distance,
               range_at str2et spkpos spacecraft date = Return distance
               /\ nth_error distances i = Some distance).
Proof.
  split.
  - intros date distance H. unfold Get_Range_From_Date. cbn [for_each].
    rewrite H. cbn [bind]. split; reflexivity.
  - intros dates distances Hlen H. unfold Get_Range_From_Date. rewrite H. cbn [bind].
    pose proof (for_each_length _ _ _ H) as Hl.
    split; [ | split; [exact Hl | apply (for_each_nth _ _ _ H)]].
    destruct distances as [ | d1 [ | d2 ds]]; simpl in Hl; try reflexivity; lia.
Qed.
End SamplerFacts.

(** ** Apoapsis searches *)

Lemma window_times_nth (start end_time time_delta : Z) (k : nat) :
  0 < time_delta ->
  (k < length (window_times start end_time time_delta))%nat ->
  nth k (window_times start end_time time_delta) 0 = start + Z.of_nat k * time_delta
  /\ start <= nth k (window_times start end_time time_delta) 0 < end_time.
Proof.
  intros Hd Hk. unfold window_times in *. rewrite grid_times_length in Hk.
  rewrite grid_times_nth by assumption.
  split; [reflexivity | now apply window_times_bounds].
Qed.

(** No grid point of the window is skipped. *)
Lemma window_times_complete (start end_time time_delta : Z) (k : Z) :
  0 < time_delta -> 0 <= k -> start + k * time_delta < end_time ->
  In (start + k * time_delta) (window_times start end_time time_delta).
Proof.
  intros Hd Hk Hlt.
  assert (Hc : (Z.to_nat k < sample_count start end_time time_delta)%nat).
  { unfold sample_count.
    assert (k + 1 <= (end_time - start + time_delta - 1) / time_delta); [ | lia].
    apply Z.div_le_lower_bound; nia. }
  replace (start + k * time_delta)
    with (nth (Z.to_nat k) (window_times start end_time time_delta) 0).
  - apply nth_In. unfold window_times. now rewrite grid_times_length.
  - unfold window_times. rewrite grid_times_nth by assumption. lia.
Qed.

Lemma nth_map_in_range {A B : Type} (f : A -> B) (l : list A) (dA : A) (dB : B) (k : nat) :
  (k < length l)%nat -> nth k (map f l) dB = f (nth k l dA).
Proof.
  intros Hk. rewrite (nth_indep _ dB (f dA)) by now rewrite length_map.
  apply map_nth.
Qed.

Lemma nth_error_nth_dflt {A : Type} (l : list A) (k : nat) (a d : A) :
  nth_error l k = Some a -> nth k l d = a.
Proof. intros H. now apply nth_error_nth. Qed.

(** The reduction only drops peaks from the two ends. *)
Lemma reduce_apoapsides_keeps_peaks (start_time end_time n : Z)
    (altitudes : list R) (times : list Z) :
  forall fuel peak_indices kept_altitudes kept_times,
  reduce_apoapsides fuel start_time end_time n
    (take_indices 0%R altitudes peak_indices) (take_indices 0 times peak_indices)
    = Return (kept_altitudes, kept_times) ->
  exists kept_indices,
    incl kept_indices peak_indices
    /\ kept_altitudes = take_indices 0%R altitudes kept_indices
    /\ kept_times = take_indices 0 times kept_indices.
Proof.
  induction fuel as [ | fuel IH]; intros pk ka kt H; simpl in H; [discriminate | ].
  destruct (_ <? _).
  - destruct (_ <? _).
    + unfold take_indices in H. rewrite !tl_map in H.
      destruct (IH _ _ _ H) as (kept & Hincl & Ha & Ht).
      exists kept. split; [ | now split].
      intros p Hp. apply Hincl in Hp. destruct pk; [contradiction | now right].
    + destruct (_ <? _); [ | discriminate].
      unfold take_indices in H. rewrite !removelast_map in H.
      destruct (IH _ _ _ H) as (kept & Hincl & Ha & Ht).
      exists kept. split; [ | now split].
      intros p Hp. apply Hincl in Hp.
      destruct pk as [ | q pk]; [contradiction | ].
      rewrite (app_removelast_last q (l := q :: pk)) by discriminate.
      apply in_or_app. now left.
  - injection H as <- <-. exists pk. split; [apply incl_refl | now split].
Qed.

Section ApoapsisFacts.
Variable str2et : Z -> R.
Variable spkpos : string -> R -> string -> string -> string -> option vec3.

Lemma Get_All_Apoapsis_In_Range_eq (start_time end_time time_delta n : Z)
    (spacecraft : string) (altitudes : list R) (times : list Z) :
  altitude_series str2et spkpos spacecraft start_time end_time time_delta
    = Return (altitudes, times) ->
  Get_All_Apoapsis_In_Range str2et spkpos start_time end_time time_delta n spacecraft
  = if 0 <? n
    then reduction_of start_time end_time n
           (take_indices 0%R altitudes (find_peaks altitudes))
           (take_indices 0 times (find_peaks altitudes))
    else Return (take_indices 0%R altitudes (find_peaks altitudes),
                 take_indices 0 times (find_peaks altitudes)).
Proof. intros H. unfold Get_All_Apoapsis_In_Range. rewrite H. reflexivity. Qed.

(** Every apoapsis [Get_All_Apoapsis_In_Range] returns sits at an index
    reported by the peak detector. *)
Lemma Get_All_Apoapsis_In_Range_peaks (start_time end_time time_delta n : Z)
    (spacecraft : string) (altitudes apoapsis_altitudes : list R)
    (times apoapsis_times : list Z) :
  altitude_series str2et spkpos spacecraft start_time end_time time_delta
    = Return (altitudes, times) ->
  Get_All_Apoapsis_In_Range str2et spkpos start_time end_time time_delta n spacecraft
    = Return (apoapsis_altitudes, apoapsis_times) ->
  exists kept_indices,
    incl kept_indices (find_peaks altitudes)
    /\ apoapsis_altitudes = take_indices 0%R altitudes kept_indices
    /\ apoapsis_times = take_indices 0 times kept_indices.
Proof.
  intros Hs H. rewrite (Get_All_Apoapsis_In_Range_eq _ _ _ _ _ _ _ Hs) in H.
  destruct (0 <? n).
  - unfold reduction_of in H. now apply reduce_apoapsides_keeps_peaks in H.
  - injection H as <- <-. exists (find_peaks altitudes).
    split; [apply incl_refl | now split].
Qed.

(** C3, as the code has it.  With a positive target count,
    [Get_All_Apoapsis_In_Range] runs the reduction on the detected peaks;
    while more peaks than the target remain, the reduction compares the
    distances of the first and the last peak to the midpoint it computes,
    [start_time + (end_time - start_time) / 2] rounded to the nearest
    microsecond with ties to even: it drops the first peak when that one is
    strictly farther, drops the last peak when that one is strictly farther,
    and raises [ValueError] when both are equally far; it always finishes.
    The computed midpoint is the exact one when the interval has an even
    number of microseconds.  Peaks 10, 70 and 130 minutes into a 140 minute
    interval with target 2 raise [ValueError]. *)
Theorem Get_All_Apoapsis_In_Range_reduction (start_time end_time time_delta n : Z)
    (spacecraft : string) :
  0 < n ->
  (forall altitudes times,
     altitude_series str2et spkpos spacecraft start_time end_time time_delta
       = Return (altitudes, times) ->
     Get_All_Apoapsis_In_Range str2et spkpos start_time end_time time_delta n spacecraft
     = reduction_of start_time end_time n
         (take_indices 0%R altitudes (find_peaks altitudes))
         (take_indices 0 times (find_peaks altitudes)))
  /\ (forall apoapsis_altitudes apoapsis_times,
        n < Z.of_nat (length apoapsis_altitudes) ->
        let midpoint := start_time + divide_and_round (end_time - start_time) 2 in
        let first_time_difference := Z.abs (hd 0 apoapsis_times - midpoint) in
        let last_time_difference := Z.abs (last apoapsis_times 0 - midpoint) in
        (last_time_difference < first_time_difference ->
         reduction_of start_time end_time n apoapsis_altitudes apoapsis_times
         = reduction_of start_time end_time n (tl apoapsis_altitudes) (tl apoapsis_times))
        /\ (first_time_difference < last_time_difference ->
            reduction_of start_time end_time n apoapsis_altitudes apoapsis_times
            = reduction_of start_time end_time n
                (removelast apoapsis_altitudes) (removelast apoapsis_times))
        /\ (first_time_difference = last_time_difference ->
            reduction_of start_time end_time n apoapsis_altitudes apoapsis_times
            = Raise ValueError))
  /\ (forall apoapsis_altitudes apoapsis_times,
        Z.of_nat (length apoapsis_altitudes) <= n ->
        reduction_of start_time end_time n apoapsis_altitudes apoapsis_times
        = Return (apoapsis_altitudes, apoapsis_times))
  /\ (forall apoapsis_altitudes apoapsis_times,
        reduction_of start_time end_time n apoapsis_altitudes apoapsis_times <> OutOfFuel)
  /\ (Z.even (end_time - start_time) = true ->
      2 * (start_time + divide_and_round (end_time - start_time) 2)
      = start_time + end_time)
  /\ (forall origin a1 a2 a3,
        reduction_of origin (origin + minutes 140) 2 [a1; a2; a3]
          [origin + minutes 10; origin + minutes 70; origin + minutes 130]
        = Raise ValueError).
Proof.
  intros Hn. split; [ | split; [ | split; [ | split; [ | split]]]].
  - intros altitudes times Hs.
    rewrite (Get_All_Apoapsis_In_Range_eq _ _ _ _ _ _ _ Hs).
    destruct (Z.ltb_spec 0 n); [reflexivity | lia].
  - intros a t Hlen midpoint fd ld.
    rewrite reduction_of_unfold by lia.
    destruct (Z.ltb_spec n (Z.of_nat (length a))); [ | lia].
    cbv zeta. fold (interval_midpoint start_time end_time) in midpoint.
    fold midpoint. fold fd. fold ld.
    repeat split; intros Hcase.
    + destruct (Z.ltb_spec ld fd); [reflexivity | lia].
    + destruct (Z.ltb_spec ld fd); [lia | ].
      destruct (Z.ltb_spec fd ld); [reflexivity | lia].
    + destruct (Z.ltb_spec ld fd); [lia | ].
      destruct (Z.ltb_spec fd ld); [lia | reflexivity].
  - intros a t Hlen. rewrite reduction_of_unfold by lia.
    destruct (Z.ltb_spec n (Z.of_nat (length a))); [lia | reflexivity].
  - intros a t. apply reduce_apoapsides_finishes; lia.
  - intros He. pose proof (divide_and_round_even _ He). lia.
  - intros origin a1 a2 a3. rewrite reduction_of_unfold by lia.
    cbn [length hd last]. change (2 <? Z.of_nat 3) with true. cbv iota zeta.
    unfold interval_midpoint.
    replace (origin + minutes 140 - origin) with (minutes 140) by lia.
    change (divide_and_round (minutes 140) 2) with (minutes 70).
    replace (origin + minutes 10 - (origin + minutes 70)) with (- minutes 60)
      by (unfold minutes; lia).
    replace (origin + minutes 130 - (origin + minutes 70)) with (minutes 60)
      by (unfold minutes; lia).
    reflexivity.
Qed.

(** C4.  [Get_Nearest_Apoapsis] samples the grid of step [time_delta]
    over [[time - time_limit, time + time_limit)], and when a peak is
    detected it returns the detected peak nearest in time to [time], the
    earliest one among equally near peaks.  With peaks detected at
    [time - 3 h] and [time + 1 h] it returns the one at [time + 1 h]. *)
Theorem Get_Nearest_Apoapsis_nearest (time time_delta time_limit : Z)
    (spacecraft : string) (altitudes : list R) (times : list Z) :
  0 < time_delta ->
  altitude_series str2et spkpos spacecraft (time - time_limit) (time + time_limit)
    time_delta = Return (altitudes, times) ->
  let peak_indices := find_peaks altitudes in
  let distance := fun i : nat => Z.abs (time - nth i times 0) in
  (forall k, (k < length times)%nat ->
     nth k times 0 = time - time_limit + Z.of_nat k * time_delta
     /\ time - time_limit <= nth k times 0 < time + time_limit)
  /\ (forall k, 0 <= k -> time - time_limit + k * time_delta < time + time_limit ->
        In (time - time_limit + k * time_delta) times)
  /\ for_each (range_at str2et spkpos spacecraft) times = Return altitudes
  /\ (peak_indices <> [] ->
      exists k,
        (k < length peak_indices)%nat
        /\ Get_Nearest_Apoapsis str2et spkpos time time_delta time_limit spacecraft
           = Return (nth (nth k peak_indices O) times 0,
                     nth (nth k peak_indices O) altitudes 0%R)
        /\ (forall j, (j < length peak_indices)%nat ->
              distance (nth k peak_indices O) <= distance (nth j peak_indices O))
        /\ (forall j, (j < k)%nat ->
              distance (nth k peak_indices O) < distance (nth j peak_indices O)))
  /\ (take_indices 0 times peak_indices = [time - hours 3; time + hours 1] ->
      Get_Nearest_Apoapsis str2et spkpos time time_delta time_limit spacecraft
      = Return (time + hours 1, nth (nth 1 peak_indices O) altitudes 0%R)).
Proof.
  intros Hd Hs peak_indices distance.
  destruct (altitude_series_inv _ _ _ _ _ _ _ _ Hd Hs) as [Ht Ha].
  split; [intros k Hk; rewrite Ht in *; now apply window_times_nth | ].
  split; [intros k Hk Hlt; rewrite Ht; now apply window_times_complete | ].
  split; [exact Ha | ].
  assert (Hrun : forall k,
            argmin (map distance peak_indices) = Return k ->
            Get_Nearest_Apoapsis str2et spkpos time time_delta time_limit spacecraft
            = Return (nth (nth k peak_indices O) times 0,
                      nth (nth k peak_indices O) altitudes 0%R)).
  { intros k Hk. unfold Get_Nearest_Apoapsis. rewrite Hs. cbn [bind].
    match goal with
    | |- bind _ ?K = ?rhs => change (bind (argmin (map distance peak_indices)) K = rhs)
    end.
    rewrite Hk. reflexivity. }
  split.
  - intros Hne.
    destruct (argmin_nonempty (map distance peak_indices)) as [k Hk].
    { destruct peak_indices; [contradiction | discriminate]. }
    destruct (argmin_spec _ _ Hk) as (Hlen & Hmin & Hfirst).
    rewrite length_map in Hlen, Hmin.
    exists k. split; [exact Hlen | ]. split; [now apply Hrun | ].
    split.
    + intros j Hj. specialize (Hmin j Hj).
      rewrite !(nth_map_in_range distance _ O) in Hmin by assumption. exact Hmin.
    + intros j Hj. specialize (Hfirst j Hj).
      rewrite !(nth_map_in_range distance _ O) in Hfirst by lia. exact Hfirst.
  - intros Hpk. unfold take_indices in Hpk.
    destruct peak_indices as [ | p1 [ | p2 [ | p3 rest]]] eqn:E; try discriminate.
    cbn [map] in Hpk. injection Hpk as H1 H2.
    assert (Hk : argmin (map distance [p1; p2]) = Return 1%nat).
    { cbn [map argmin argmin_from]. unfold distance. rewrite H1, H2.
      replace (time - (time - hours 3)) with (hours 3) by lia.
      replace (time - (time + hours 1)) with (- hours 1) by lia.
      reflexivity. }
    rewrite (Hrun _ Hk). cbn [nth]. now rewrite H2.
Qed.

(** C5.  When no peak is detected in the window, [Get_Nearest_Apoapsis]
    raises [ValueError]; and whatever it returns is a detected peak of the
    sampled series, never the initial values of its result variables. *)
Theorem Get_Nearest_Apoapsis_no_peak (time time_delta time_limit : Z)
    (spacecraft : string) (altitudes : list R) (times : list Z) :
  altitude_series str2et spkpos spacecraft (time - time_limit) (time + time_limit)
    time_delta = Return (altitudes, times) ->
  (find_peaks altitudes = [] ->
   Get_Nearest_Apoapsis str2et spkpos time time_delta time_limit spacecraft
   = Raise ValueError)
  /\ (forall apoapsis_time apoapsis_altitude,
        Get_Nearest_Apoapsis str2et spkpos time time_delta time_limit spacecraft
          = Return (apoapsis_time, apoapsis_altitude) ->
        exists p, In p (find_peaks altitudes)
                  /\ apoapsis_time = nth p times 0
                  /\ apoapsis_altitude = nth p altitudes 0%R).
Proof.
  intros Hs. split.
  - intros Hnone. unfold Get_Nearest_Apoapsis. rewrite Hs. cbn [bind].
    rewrite Hnone. reflexivity.
  - intros t a H. unfold Get_Nearest_Apoapsis in H. rewrite Hs in H. cbn [bind] in H.
    destruct (argmin _) as [k | e | ] eqn:Hk; cbn [bind] in H; try discriminate.
    injection H as <- <-.
    apply argmin_spec in Hk as (Hlen & _). rewrite length_map in Hlen.
    exists (nth k (find_peaks altitudes) O).
    split; [now apply nth_In | now split].
Qed.
End ApoapsisFacts.

(** C6, as the code has it.  Every index reported by the peak detector is
    an interior sample, the middle one (rounded down) of a run of equal
    samples whose two bordering samples are strictly lower; it is never
    lower than a neighbour, and it is strictly higher than both whenever
    no two consecutive samples of the series are equal. *)
Theorem find_peaks_interior_maximum (x : list R) (p : nat) :
  In p (find_peaks x) ->
  ((1 <= p)%nat /\ (p + 1 < length x)%nat)
  /\ (exists l r : nat,
        (1 <= l <= p)%nat /\ (p <= r)%nat /\ (r + 1 < length x)%nat
        /\ p = ((l + r) / 2)%nat
        /\ (forall j, (l <= j <= r)%nat -> nth j x 0%R = nth p x 0%R)
        /\ (nth (l - 1) x 0 < nth p x 0)%R /\ (nth (r + 1) x 0 < nth p x 0)%R)
  /\ (nth (p - 1) x 0 <= nth p x 0)%R
  /\ (nth (p + 1) x 0 <= nth p x 0)%R
  /\ ((forall j, (j + 1 < length x)%nat -> nth j x 0%R <> nth (j + 1) x 0%R) ->
      (nth (p - 1) x 0 < nth p x 0)%R /\ (nth (p + 1) x 0 < nth p x 0)%R).
Proof.
  intros Hp.
  destruct (find_peaks_plateau x p Hp) as (l & r & H1 & H2 & H3 & H4 & H5 & H6 & H7 & H8).
  assert (Hleft : (nth (p - 1) x 0 <= nth p x 0)%R).
  { destruct (Nat.eq_dec p l) as [-> | Hne]; [lra | ].
    rewrite (H7 (p - 1)%nat) by lia. lra. }
  assert (Hright : (nth (p + 1) x 0 <= nth p x 0)%R).
  { destruct (Nat.eq_dec p r) as [-> | Hne]; [lra | ].
    rewrite (H7 (p + 1)%nat) by lia. lra. }
  split; [lia | ].
  split; [exists l, r; repeat split; try lia; assumption | ].
  split; [exact Hleft | ]. split; [exact Hright | ].
  intros Hdistinct. split.
  - destruct (Nat.eq_dec p l) as [-> | Hne]; [exact H6 | ].
    exfalso. apply (Hdistinct (p - 1)%nat); [lia | ].
    replace (p - 1 + 1)%nat with p by lia. apply H7. lia.
  - destruct (Nat.eq_dec p r) as [-> | Hne]; [exact H8 | ].
    exfalso. apply (Hdistinct p); [lia | ].
    symmetry. apply H7. lia.
Qed.

(** ** The theorems at work on the synthetic ephemeris *)

Lemma Aberrate_Position_angle_witness :
  Synthetic.spkpos Synthetic.level "MERCURY" 0 "J2000" "NONE" "SUN" = Some (mkVec 7 0 0)
  /\ exists angle : R,
       angle = (atan (sqrt (6.6743e-11 * 1.9891e30
                            * (2 / sqrt (7 ^ 2 + 0 ^ 2 + 0 ^ 2) - 1 / (57909050 * 1000)))
                      / 400000) * (PI / 180))%R
       /\ Aberrate_Position (Synthetic.spkpos Synthetic.level) (mkVec 1 2 3) 0
          = Return (mkVec (cos angle * 1 - sin angle * 2) (sin angle * 1 + cos angle * 2) 3)%R.
Proof.
  split; [reflexivity | ].
  eexists. split; [reflexivity | ].
  exact (proj2 (Aberrate_Position_angle (Synthetic.spkpos Synthetic.level)
                  (mkVec 1 2 3) (mkVec 7 0 0) 0%R eq_refl)).
Defined.

Lemma Aberrate_Position_keeps_z_witness :
  exists rotated_position,
    Aberrate_Position (Synthetic.spkpos Synthetic.level) (mkVec 1 2 3) 0
      = Return rotated_position
    /\ v2 rotated_position = 3%R.
Proof.
  exact (Aberrate_Position_keeps_z (Synthetic.spkpos Synthetic.level)
           (mkVec 1 2 3) (mkVec 7 0 0) 0%R eq_refl).
Defined.

Lemma Aberrate_Position_isometry_witness :
  exists rotated_position,
    Aberrate_Position (Synthetic.spkpos Synthetic.level) (mkVec 3 4 5) 0
      = Return rotated_position
    /\ sqrt (v0 rotated_position ^ 2 + v1 rotated_position ^ 2) = sqrt (3 ^ 2 + 4 ^ 2)
    /\ norm rotated_position = norm (mkVec 3 4 5).
Proof.
  exact (Aberrate_Position_isometry (Synthetic.spkpos Synthetic.level)
           (mkVec 3 4 5) (mkVec 7 0 0) 0%R eq_refl).
Defined.


Lemma Get_Range_From_Date_shape_witness :
  Get_Range_From_Date Synthetic.str2et (Synthetic.spkpos Synthetic.level)
    "MESSENGER" (OneDate 0) = Return (Scalar 7)
  /\ Get_Range_From_Date Synthetic.str2et (Synthetic.spkpos Synthetic.level)
       "MESSENGER" (DateList [0]) = Return (Scalar 7)
  /\ Get_Range_From_Date Synthetic.str2et (Synthetic.spkpos Synthetic.level)
       "MESSENGER" (DateList [0; 60000000; 120000000]) = Return (Distances [7; 7; 7]%R).
Proof.
  destruct (Get_Range_From_Date_shape Synthetic.str2et (Synthetic.spkpos Synthetic.level)
              "MESSENGER") as [Hone Hmany].
  assert (Hr : forall date,
            range_at Synthetic.str2et (Synthetic.spkpos Synthetic.level) "MESSENGER" date
            = Return 7%R).
  { intros date. apply (synthetic_range_at Synthetic.level). discriminate. }
  destruct (Hone 0 7%R (Hr 0)) as [H1 H2].
  split; [exact H1 | ]. split; [exact H2 | ].
  apply (Hmany [0; 60000000; 120000000] [7; 7; 7]%R).
  - apply le_S, le_n.
  - cbn [for_each]. rewrite !Hr. reflexivity.
Defined.

Lemma Get_All_Apoapsis_In_Range_reduction_witness :
  0 < 2
  /\ Get_All_Apoapsis_In_Range Synthetic.str2et (Synthetic.spkpos Synthetic.three_peaks)
       0 (minutes 140) (minutes 5) 2 "MESSENGER" = Raise ValueError.
Proof.
  assert (Hn : 0 < 2) by reflexivity.
  split; [exact Hn | ].
  destruct (Get_All_Apoapsis_In_Range_reduction Synthetic.str2et
              (Synthetic.spkpos Synthetic.three_peaks)
              0 (minutes 140) (minutes 5) 2 "MESSENGER" Hn)
    as (Hrun & Hstep & _).
  rewrite (Hrun _ _ (synthetic_altitude_series Synthetic.three_peaks "MESSENGER"
                       0 (minutes 140) (minutes 5) eq_refl eq_refl)).
  rewrite find_peaks_IZR.
  set (samples := map _ (window_times 0 (minutes 140) (minutes 5))).
  assert (Hpk : find_peaks_Z samples = [2; 14; 26]%nat) by (vm_compute; reflexivity).
  rewrite Hpk.
  assert (Ht : take_indices 0 (window_times 0 (minutes 140) (minutes 5)) [2; 14; 26]%nat
               = [minutes 10; minutes 70; minutes 130]) by (vm_compute; reflexivity).
  rewrite Ht.
  apply Hstep; reflexivity.
Defined.

Lemma Get_Nearest_Apoapsis_nearest_witness :
  0 < hours 1
  /\ Get_Nearest_Apoapsis Synthetic.str2et (Synthetic.spkpos Synthetic.two_peaks)
       (hours 12) (hours 1) (hours 12) "MESSENGER"
     = Return (hours 13, IZR (10 ^ 19)).
Proof.
  assert (Hd : 0 < hours 1) by reflexivity.
  split; [exact Hd | ].
  pose proof (synthetic_altitude_series Synthetic.two_peaks "MESSENGER"
                (hours 12 - hours 12) (hours 12 + hours 12) (hours 1) eq_refl eq_refl)
    as Hs.
  destruct (Get_Nearest_Apoapsis_nearest Synthetic.str2et
              (Synthetic.spkpos Synthetic.two_peaks)
              (hours 12) (hours 1) (hours 12) "MESSENGER" _ _ Hd Hs)
    as (_ & _ & _ & _ & Hex).
  rewrite find_peaks_IZR in Hex.
  set (window := window_times (hours 12 - hours 12) (hours 12 + hours 12) (hours 1)) in *.
  set (samples := map (fun t => Synthetic.two_peaks (strftime t)) window) in *.
  assert (Hpk : find_peaks_Z samples = [9; 13]%nat) by (vm_compute; reflexivity).
  rewrite Hpk in Hex.
  rewrite Hex by (vm_compute; reflexivity).
  cbn [nth].
  rewrite (nth_map_in_range IZR samples 0 0%R 13)
    by (apply Nat.ltb_lt; vm_compute; reflexivity).
  replace (nth 13 samples 0) with (10 ^ 19) by (vm_compute; reflexivity).
  reflexivity.
Defined.

Lemma Get_Nearest_Apoapsis_no_peak_witness :
  Get_Nearest_Apoapsis Synthetic.str2et (Synthetic.spkpos Synthetic.level)
    (hours 1) (hours 1) (hours 1) "MESSENGER" = Raise ValueError.
Proof.
  pose proof (synthetic_altitude_series Synthetic.level "MESSENGER"
                (hours 1 - hours 1) (hours 1 + hours 1) (hours 1) eq_refl eq_refl) as Hs.
  destruct (Get_Nearest_Apoapsis_no_peak Synthetic.str2et
              (Synthetic.spkpos Synthetic.level)
              (hours 1) (hours 1) (hours 1) "MESSENGER" _ _ Hs) as [Hnone _].
  apply Hnone. rewrite find_peaks_IZR. vm_compute. reflexivity.
Defined.

Lemma find_peaks_interior_maximum_witness :
  In 1%nat (find_peaks [0; 1; 0]%R)
  /\ (nth 0 [0; 1; 0] 0 < nth 1 [0; 1; 0] 0)%R
  /\ (nth 2 [0; 1; 0] 0 < nth 1 [0; 1; 0] 0)%R.
Proof.
  assert (Hp : In 1%nat (find_peaks [0; 1; 0]%R)).
  { change [0; 1; 0]%R with (map IZR [0; 1; 0]). rewrite find_peaks_IZR.
    left. reflexivity. }
  split; [exact Hp | ].
  destruct (find_peaks_interior_maximum [0; 1; 0]%R 1 Hp) as (_ & _ & _ & _ & Hstrict).
  apply Hstrict.
  intros [ | [ | j]] Hj;
    [cbn [nth Nat.add]; lra | cbn [nth Nat.add]; lra | cbn [length] in Hj; lia].
Defined.

(** C6 fails as stated.  Sampled every half second, two consecutive
    samples fall in the same second and get the same altitude: the series
    is [0; 0; 1; 1; 0; 0], the apoapsis reported is the third sample, and the
    fourth sample is as high. *)
Lemma flat_top_apoapsis_reported :
  altitude_series Synthetic.str2et (Synthetic.spkpos Synthetic.one_bump) "MESSENGER"
    0 3000000 500000
  = Return ([0; 0; 1; 1; 0; 0]%R, [0; 500000; 1000000; 1500000; 2000000; 2500000])
  /\ Get_All_Apoapsis_In_Range Synthetic.str2et (Synthetic.spkpos Synthetic.one_bump)
       0 3000000 500000 0 "MESSENGER"
     = Return ([nth 2 [0; 0; 1; 1; 0; 0] 0]%R, [1000000])
  /\ ~ (nth 3 [0; 0; 1; 1; 0; 0] 0 < nth 2 [0; 0; 1; 1; 0; 0] 0)%R.
Proof.
  assert (Hs : altitude_series Synthetic.str2et (Synthetic.spkpos Synthetic.one_bump)
                 "MESSENGER" 0 3000000 500000
               = Return ([0; 0; 1; 1; 0; 0]%R,
                         [0; 500000; 1000000; 1500000; 2000000; 2500000])).
  { exact (synthetic_altitude_series Synthetic.one_bump "MESSENGER"
             0 3000000 500000 eq_refl eq_refl). }
  split; [exact Hs | ]. split.
  - rewrite (Get_All_Apoapsis_In_Range_eq _ _ _ _ _ _ _ _ _ Hs).
    change [0; 0; 1; 1; 0; 0]%R with (map IZR [0; 0; 1; 1; 0; 0]).
    rewrite find_peaks_IZR. reflexivity.
  - cbn [nth]. lra.
Qed.

(** The same at the level of the detector: a reported peak need not be
    strictly above its neighbours. *)
Lemma find_peaks_not_strict :
  ~ (forall (x : list R) (p : nat),
       In p (find_peaks x) ->
       (nth (p - 1) x 0 < nth p x 0)%R /\ (nth (p + 1) x 0 < nth p x 0)%R).
Proof.
  intros H. destruct (H [0; 1; 1; 0]%R 1%nat) as [_ Hright].
  - change [0; 1; 1; 0]%R with (map IZR [0; 1; 1; 0]). rewrite find_peaks_IZR.
    left. reflexivity.
  - cbn [nth Nat.add] in Hright. lra.
Qed.

(** * Further properties of the module *)

(** ** More on the peak detector *)

Section LocalMaximaOrder.
Context {A : Type} (ltb eqb : A -> A -> bool) (dflt : A).

Lemma local_maxima_from_ge (x : list A) (i_max fuel i p : nat) :
  In p (local_maxima_from ltb eqb dflt x i_max fuel i) -> (i <= p)%nat /\ (p < i_max)%nat.
Proof.
  intros Hp.
  destruct (local_maxima_from_sound ltb eqb dflt x i_max fuel i p Hp)
    as (l & r & H1 & H2 & H3 & H4 & _).
  subst p. split.
  - apply Nat.le_trans with l; [exact H1 | ]. apply Nat.div_le_lower_bound; lia.
  - apply Nat.Div0.div_lt_upper_bound. lia.
Qed.

(** The recorded indices increase, and two of them are never adjacent. *)
Lemma local_maxima_from_spaced (x : list A) (i_max : nat) :
  forall fuel i a b,
  (a < b < length (local_maxima_from ltb eqb dflt x i_max fuel i))%nat ->
  (nth a (local_maxima_from ltb eqb dflt x i_max fuel i) O + 2
   <= nth b (local_maxima_from ltb eqb dflt x i_max fuel i) O)%nat.
Proof.
  induction fuel as [ | fuel IH]; intros i a b; cbn [local_maxima_from length]; [lia | ].
  destruct (i <? i_max)%nat; [ | cbn [length]; lia].
  destruct (ltb (nth (i - 1) x dflt) (nth i x dflt)); [ | apply IH].
  pose proof (plateau_end_ge eqb dflt x (nth i x dflt) i_max i_max (i + 1)) as He.
  set (e := plateau_end eqb dflt x (nth i x dflt) i_max i_max (i + 1)) in *.
  destruct (ltb (nth e x dflt) (nth i x dflt)); [ | apply IH].
  intros Hab. cbn [length] in Hab.
  destruct b as [ | b]; [lia | ]. destruct a as [ | a]; cbn [nth].
  - assert (Hin : In (nth b (local_maxima_from ltb eqb dflt x i_max fuel (e + 1)) O)
                     (local_maxima_from ltb eqb dflt x i_max fuel (e + 1)))
      by (apply nth_In; lia).
    apply local_maxima_from_ge in Hin as [Hin _].
    assert (((i + (e - 1)) / 2 <= e - 1)%nat); [ | lia].
    apply Nat.Div0.div_le_upper_bound. lia.
  - apply IH. lia.
Qed.
End LocalMaximaOrder.

Section LocalMaximaComplete.
Context {A : Type} (ltb eqb : A -> A -> bool) (dflt : A).
Hypothesis eqb_eq : forall a b, eqb a b = true -> a = b.
Hypothesis ltb_asym : forall a b, ltb a b = true -> ltb b a = false.

Lemma ltb_irrefl (a : A) : ltb a a = false.
Proof. destruct (ltb a a) eqn:E; [ | reflexivity]. now rewrite (ltb_asym _ _ E) in E. Qed.

(** A sample strictly above both neighbours is never skipped. *)
Lemma local_maxima_from_complete (x : list A) (i_max p : nat) :
  (p < i_max)%nat ->
  ltb (nth (p - 1) x dflt) (nth p x dflt) = true ->
  ltb (nth (p + 1) x dflt) (nth p x dflt) = true ->
  forall fuel i,
  (i_max - i <= fuel)%nat -> (1 <= i <= p)%nat ->
  In p (local_maxima_from ltb eqb dflt x i_max fuel i).
Proof.
  intros Hp Hrise Hfall.
  induction fuel as [ | fuel IH]; intros i Hf Hi; [lia | ]. cbn [local_maxima_from].
  destruct (Nat.ltb_spec i i_max) as [Hlt | Hge]; [ | lia].
  pose proof (plateau_end_ge eqb dflt x (nth i x dflt) i_max i_max (i + 1)) as He1.
  pose proof (plateau_end_le eqb dflt x (nth i x dflt) i_max i_max (i + 1)) as He2.
  pose proof (plateau_end_equal eqb dflt x (nth i x dflt) i_max i_max (i + 1)) as Heq.
  set (e := plateau_end eqb dflt x (nth i x dflt) i_max i_max (i + 1)) in *.
  assert (Hflat : forall j, (i <= j < e)%nat -> nth j x dflt = nth i x dflt).
  { intros j Hj. destruct (Nat.eq_dec j i) as [-> | Hne]; [reflexivity | ].
    apply eqb_eq, Heq. lia. }
  destruct (Nat.eq_dec i p) as [-> | Hne].
  - rewrite Hrise.
    assert (Hep : e = (p + 1)%nat).
    { destruct (Nat.eq_dec e (p + 1)) as [H | H]; [exact H | ].
      assert (Hc : nth (p + 1) x dflt = nth p x dflt) by (apply Hflat; lia).
      rewrite Hc, ltb_irrefl in Hfall. discriminate. }
    rewrite Hep, Hfall. left.
    replace (p + (p + 1 - 1))%nat with (p * 2)%nat by lia.
    apply Nat.div_mul. discriminate.
  - destruct (ltb (nth (i - 1) x dflt) (nth i x dflt)); [ | apply IH; lia].
    destruct (ltb (nth e x dflt) (nth i x dflt)) eqn:Hdown; [ | apply IH; lia].
    right. apply IH; [lia | ].
    assert (Hout : ~ (p <= e)%nat); [ | lia].
    intros Hpe.
    assert (Hprev : nth (p - 1) x dflt = nth i x dflt) by (apply Hflat; lia).
    destruct (Nat.eq_dec p e) as [-> | Hpe'].
    + rewrite Hprev in Hrise. rewrite (ltb_asym _ _ Hdown) in Hrise. discriminate.
    + assert (Hcur : nth p x dflt = nth i x dflt) by (apply Hflat; lia).
      rewrite Hprev, Hcur, ltb_irrefl in Hrise. discriminate.
Qed.
End LocalMaximaComplete.

Lemma Rltb_asym (a b : R) : Rltb a b = true -> Rltb b a = false.
Proof.
  intros H. apply Rltb_true_iff in H.
  destruct (Rltb b a) eqn:E; [ | reflexivity]. apply Rltb_true_iff in E. lra.
Qed.

Lemma find_peaks_strict_maximum (x : list R) (p : nat) :
  (1 <= p)%nat -> (p + 1 < length x)%nat ->
  (nth (p - 1) x 0 < nth p x 0)%R -> (nth (p + 1) x 0 < nth p x 0)%R ->
  In p (find_peaks x).
Proof.
  intros H1 H2 Hrise Hfall. unfold find_peaks, local_maxima_1d.
  apply (local_maxima_from_complete Rltb Reqb 0%R).
  - intros a b. apply Reqb_true_iff.
  - apply Rltb_asym.
  - lia.
  - now apply Rltb_true_iff.
  - now apply Rltb_true_iff.
  - lia.
  - lia.
Qed.

(** On a series without two equal consecutive samples, the reported peaks
    are exactly the interior samples strictly above both neighbours. *)
Theorem find_peaks_exact (x : list R) (p : nat) :
  (forall j, (j + 1 < length x)%nat -> nth j x 0%R <> nth (j + 1) x 0%R) ->
  In p (find_peaks x)
  <-> (1 <= p)%nat /\ (p + 1 < length x)%nat
      /\ (nth (p - 1) x 0 < nth p x 0)%R /\ (nth (p + 1) x 0 < nth p x 0)%R.
Proof.
  intros Hdistinct. split.
  - intros Hp.
    destruct (find_peaks_plateau x p Hp) as (l & r & H1 & H2 & H3 & H4 & H5 & H6 & H7 & H8).
    assert (Hl : l = p).
    { destruct (Nat.eq_dec l p) as [E | E]; [exact E | ]. exfalso.
      apply (Hdistinct (p - 1)%nat); [lia | ].
      replace (p - 1 + 1)%nat with p by lia. apply H7. lia. }
    assert (Hr : r = p).
    { destruct (Nat.eq_dec r p) as [E | E]; [exact E | ]. exfalso.
      apply (Hdistinct p); [lia | ]. symmetry. apply H7. lia. }
    subst l. rewrite Hr in H8, H4. repeat split; try lia; assumption.
  - intros (H1 & H2 & H3 & H4). now apply find_peaks_strict_maximum.
Qed.

(** Every interior sample strictly above both its neighbours is reported,
    whatever the rest of the series looks like. *)
Theorem find_peaks_complete (x : list R) (p : nat) :
  (1 <= p)%nat -> (p + 1 < length x)%nat ->
  (nth (p - 1) x 0 < nth p x 0)%R -> (nth (p + 1) x 0 < nth p x 0)%R ->
  In p (find_peaks x).
Proof. apply find_peaks_strict_maximum. Qed.

(** The reported indices come in increasing order, at least two apart. *)
Theorem find_peaks_spaced (x : list R) (a b : nat) :
  (a < b < length (find_peaks x))%nat ->
  (nth a (find_peaks x) O + 2 <= nth b (find_peaks x) O)%nat.
Proof. apply local_maxima_from_spaced. Qed.

(** A series of fewer than three samples has no peak. *)
Theorem find_peaks_short (x : list R) : (length x <= 2)%nat -> find_peaks x = [].
Proof.
  intros Hlen. destruct (find_peaks x) as [ | p ps] eqn:E; [reflexivity | ].
  assert (Hp : In p (find_peaks x)) by (rewrite E; now left).
  destruct (find_peaks_plateau x p Hp) as (l & r & H1 & H2 & H3 & H4 & _). lia.
Qed.

(** A series that never falls, or never rises, has no peak. *)
Theorem find_peaks_monotone (x : list R) :
  (forall j, (j + 1 < length x)%nat -> (nth j x 0 <= nth (j + 1) x 0)%R)
  \/ (forall j, (j + 1 < length x)%nat -> (nth (j + 1) x 0 <= nth j x 0)%R) ->
  find_peaks x = [].
Proof.
  intros Hmono. destruct (find_peaks x) as [ | p ps] eqn:E; [reflexivity | ].
  assert (Hp : In p (find_peaks x)) by (rewrite E; now left).
  destruct (find_peaks_plateau x p Hp) as (l & r & H1 & H2 & H3 & H4 & H5 & H6 & H7 & H8).
  exfalso. destruct Hmono as [Hup | Hdown].
  - specialize (Hup r ltac:(lia)). rewrite (H7 r) in Hup by lia. lra.
  - specialize (Hdown (l - 1)%nat ltac:(lia)).
    replace (l - 1 + 1)%nat with l in Hdown by lia.
    rewrite (H7 l) in Hdown by lia. lra.
Qed.

(** ** Single queries and the aberration angle *)

Lemma norm_nonneg (p : vec3) : (0 <= norm p)%R.
Proof. apply sqrt_pos. Qed.

Lemma norm_sqr (p : vec3) : (norm p * norm p = v0 p ^ 2 + v1 p ^ 2 + v2 p ^ 2)%R.
Proof. unfold norm. apply sqrt_sqrt. nra. Qed.

Lemma rotate_xy_back (angle : R) (p : vec3) : rotate_xy (- angle) (rotate_xy angle p) = p.
Proof.
  unfold rotate_xy. cbn [v0 v1 v2]. rewrite cos_neg, sin_neg.
  pose proof (sin2_cos2 angle) as H. unfold Rsqr in H.
  destruct p as [x y z]. cbn [v0 v1 v2]. f_equal.
  - replace (cos angle * (cos angle * x - sin angle * y)
             - - sin angle * (sin angle * x + cos angle * y))%R
      with ((sin angle * sin angle + cos angle * cos angle) * x)%R by ring.
    rewrite H. ring.
  - replace (- sin angle * (cos angle * x - sin angle * y)
             + cos angle * (sin angle * x + cos angle * y))%R
      with ((sin angle * sin angle + cos angle * cos angle) * y)%R by ring.
    rewrite H. ring.
Qed.

(** The angle is never negative and stays below a quarter turn scaled by
    [PI / 180], whatever the distance: under 0.045 rad. *)
Theorem aberration_angle_range (mercury_distance : R) :
  (0 <= aberration_angle_of mercury_distance < PI / 2 * (PI / 180))%R
  /\ (aberration_angle_of mercury_distance < 2 / 45)%R.
Proof.
  unfold aberration_angle_of. cbv zeta.
  set (v := sqrt _).
  assert (Hv : (0 <= v / 400000)%R).
  { apply Rmult_le_pos; [apply sqrt_pos | lra]. }
  assert (Ha : (0 <= atan (v / 400000))%R).
  { destruct Hv as [Hv | <-]; [ | rewrite atan_0; lra].
    left. rewrite <- atan_0. now apply atan_increasing. }
  pose proof (atan_bound (v / 400000)) as [_ Hb].
  pose proof PI_RGT_0. pose proof PI_4.
  assert (0 < PI / 180)%R by lra.
  split; [split | ]; nra.
Qed.

Section ProviderFacts.
Variable str2et : Z -> R.
Variable spkpos : string -> R -> string -> string -> string -> option vec3.

(** Only the whole second of a date reaches the provider: two dates in the
    same second give the same position, distance and range. *)
Theorem queries_ignore_microseconds (spacecraft : string) (date date' : Z) :
  date / 1000000 = date' / 1000000 ->
  Get_Position str2et spkpos spacecraft date = Get_Position str2et spkpos spacecraft date'
  /\ Get_Heliocentric_Distance str2et spkpos date
     = Get_Heliocentric_Distance str2et spkpos date'
  /\ Get_Range_From_Date str2et spkpos spacecraft (OneDate date)
     = Get_Range_From_Date str2et spkpos spacecraft (OneDate date').
Proof.
  intros H.
  unfold Get_Position, Get_Heliocentric_Distance, Get_Range_From_Date, range_at, for_each.
  unfold strftime, microseconds_per_second. rewrite H. repeat split; reflexivity.
Qed.

(** [Get_Position] turns a data gap into [None]; [Get_Range_From_Date]
    raises on the same gap, and otherwise returns the length of the
    position [Get_Position] gives. *)
Theorem Get_Range_From_Date_of_Get_Position (spacecraft : string) (date : Z) :
  match Get_Position str2et spkpos spacecraft date with
  | Some position =>
      Get_Range_From_Date str2et spkpos spacecraft (OneDate date)
      = Return (Scalar (norm position))
  | None =>
      Get_Range_From_Date str2et spkpos spacecraft (OneDate date) = Raise SpiceyError
  end.
Proof.
  unfold Get_Position, Get_Range_From_Date, range_at, for_each, query.
  destruct (spkpos spacecraft _ "BC_MSO" "NONE" "MERCURY"); reflexivity.
Qed.

(** A distance returned by [Get_Heliocentric_Distance] is never negative
    and squares to the sum of the squared coordinates of the provider's
    vector; a data gap raises. *)
Theorem Get_Heliocentric_Distance_value (date : Z) :
  match spkpos "MERCURY" (str2et (date / 1000000)) "J2000" "NONE" "SUN" with
  | Some position =>
      exists distance,
        Get_Heliocentric_Distance str2et spkpos date = Return distance
        /\ (0 <= distance)%R
        /\ (distance * distance = v0 position ^ 2 + v1 position ^ 2 + v2 position ^ 2)%R
  | None => Get_Heliocentric_Distance str2et spkpos date = Raise SpiceyError
  end.
Proof.
  unfold Get_Heliocentric_Distance, query, strftime, microseconds_per_second.
  destruct (spkpos "MERCURY" _ "J2000" "NONE" "SUN") as [position | ]; [ | reflexivity].
  exists (norm position). split; [reflexivity | ].
  split; [apply norm_nonneg | apply norm_sqr].
Qed.

(** [Aberrate_Position] at the epoch of a date rotates by the angle that
    belongs to the distance [Get_Heliocentric_Distance] reports for that
    date, and fails exactly when that one fails. *)
Theorem Aberrate_Position_uses_heliocentric_distance (position : vec3) (date : Z) :
  Aberrate_Position spkpos position (str2et (strftime date))
  = (distance <- Get_Heliocentric_Distance str2et spkpos date ;;
     Return (rotate_xy (aberration_angle_of distance) position)).
Proof.
  rewrite Aberrate_Position_eq. unfold Get_Heliocentric_Distance, query.
  destruct (spkpos "MERCURY" _ "J2000" "NONE" "SUN"); reflexivity.
Qed.

(** The aberration rotation and the dipole shift commute: shifting a
    position before aberrating it gives the shifted aberrated position. *)
Theorem Aberrate_Position_dipole_shift_commute (position : vec3) (spice_date : R) :
  Aberrate_Position spkpos (dipole_shift position) spice_date
  = fmap dipole_shift (Aberrate_Position spkpos position spice_date).
Proof.
  rewrite !Aberrate_Position_eq. unfold fmap.
  destruct (spkpos "MERCURY" spice_date "J2000" "NONE" "SUN"); reflexivity.
Qed.

(** [Aberrate_Position] loses nothing: rotating its result back by the
    same angle restores the input, so two positions with the same
    aberrated position at an epoch are equal. *)
Theorem Aberrate_Position_injective (position position' rotated : vec3) (spice_date : R) :
  Aberrate_Position spkpos position spice_date = Return rotated ->
  Aberrate_Position spkpos position' spice_date = Return rotated ->
  position = position'.
Proof.
  rewrite !Aberrate_Position_eq.
  destruct (spkpos "MERCURY" spice_date "J2000" "NONE" "SUN") as [m | ]; [ | discriminate].
  intros H1 H2. injection H1 as H1. injection H2 as H2.
  rewrite <- (rotate_xy_back (aberration_angle_of (norm m)) position).
  rewrite <- (rotate_xy_back (aberration_angle_of (norm m)) position').
  now rewrite H1, H2.
Qed.
End ProviderFacts.

(** ** More on the trajectory sampler *)

Lemma for_each_raises {A B : Type} (f : A -> outcome B) (l : list A) (e : exn) :
  (forall a, In a l -> f a = Raise e \/ exists b, f a = Return b) ->
  (exists a, In a l /\ f a = Raise e) ->
  for_each f l = Raise e.
Proof.
  induction l as [ | a0 l IH]; intros Hall (a & Hin & Ha); [contradiction | ].
  cbn [for_each].
  destruct (Hall a0 (or_introl eq_refl)) as [H0 | [b0 H0]]; rewrite H0; cbn [bind];
    [reflexivity | ].
  rewrite IH; [reflexivity | intros; apply Hall; now right | ].
  destruct Hin as [-> | Hin]; [congruence | eauto].
Qed.

Lemma for_each_outcomes {A B : Type} (f : A -> outcome B) (l : list A) (e : exn) :
  (forall a, f a = Raise e \/ exists b, f a = Return b) ->
  for_each f l = Raise e \/ exists bs, for_each f l = Return bs.
Proof.
  intros Hall. induction l as [ | a l IH]; cbn [for_each]; [right; eauto | ].
  destruct (Hall a) as [-> | [b ->]]; cbn [bind]; [now left | ].
  destruct IH as [-> | [bs ->]]; cbn [bind]; [now left | right; eauto].
Qed.

Lemma nth_error_combine {A B : Type} (la : list A) (lb : list B) (i : nat) (a : A) (b : B) :
  nth_error la i = Some a -> nth_error lb i = Some b ->
  nth_error (combine la lb) i = Some (a, b).
Proof.
  revert lb i; induction la as [ | a0 la IH]; intros lb i Ha Hb;
    [destruct i; discriminate | ].
  destruct lb as [ | b0 lb]; [destruct i; discriminate | ].
  destruct i as [ | i]; cbn in *; [congruence | now apply IH].
Qed.

Lemma in_combine_right {A B : Type} (la : list A) (lb : list B) (b : B) :
  length la = length lb -> In b lb -> exists a, In (a, b) (combine la lb).
Proof.
  revert lb; induction la as [ | a0 la IH]; intros [ | b0 lb] Hlen Hin;
    try discriminate; try contradiction.
  destruct Hin as [-> | Hin]; [exists a0; now left | ].
  destruct (IH lb) as [a Ha]; [now injection Hlen | assumption | ].
  exists a. now right.
Qed.

Lemma sample_epochs_nth_error (et_one et_two : R) (steps : Z) (k : nat) :
  (k < Z.to_nat steps)%nat ->
  nth_error (sample_epochs et_one et_two steps) k
  = Some (IZR (Z.of_nat k) * (et_two - et_one) / IZR steps + et_one)%R.
Proof.
  intros Hk. unfold sample_epochs.
  rewrite nth_error_map, nth_error_seq.
  destruct (Nat.ltb_spec k (Z.to_nat steps)); [reflexivity | lia].
Qed.

(** The sampled epochs are equally spaced by [(et_two - et_one) / steps];
    when both dates fall in the same second they all coincide. *)
Theorem sample_epochs_spacing (et_one et_two : R) (steps : Z) (k : nat) :
  (k + 1 < Z.to_nat steps)%nat ->
  exists t t',
    nth_error (sample_epochs et_one et_two steps) k = Some t
    /\ nth_error (sample_epochs et_one et_two steps) (k + 1) = Some t'
    /\ (t' - t = (et_two - et_one) / IZR steps)%R
    /\ (et_one = et_two -> t = et_one /\ t' = et_one).
Proof.
  intros Hk.
  assert (HN : IZR steps <> 0%R) by (apply not_0_IZR; lia).
  eexists; eexists.
  split; [apply sample_epochs_nth_error; lia | ].
  split; [apply sample_epochs_nth_error; lia | ].
  split.
  - rewrite Nat2Z.inj_add, plus_IZR. change (IZR (Z.of_nat 1)) with 1%R. field. exact HN.
  - intros ->. split; field; exact HN.
Qed.

Section SamplerMore.
Variable str2et : Z -> R.
Variable spkpos : string -> R -> string -> string -> string -> option vec3.

Lemma query_cases (target : string) (et : R) (frame observer : string) :
  query spkpos target et frame observer = Raise SpiceyError
  \/ exists p, query spkpos target et frame observer = Return p.
Proof. unfold query. destruct (spkpos _ _ _ _ _); eauto. Qed.

Lemma Aberrate_Position_cases (position : vec3) (et : R) :
  Aberrate_Position spkpos position et = Raise SpiceyError
  \/ exists p, Aberrate_Position spkpos position et = Return p.
Proof. rewrite Aberrate_Position_eq. destruct (spkpos _ _ _ _ _); eauto. Qed.

(** A data gap at any sampled epoch makes [Get_Trajectory] raise: for the
    spacecraft always, for Mercury when aberration is requested.  No
    partial or padded trajectory is returned. *)
Theorem Get_Trajectory_data_gap (spacecraft : string) (date0 date1 : Z)
    (steps : Z) (frame : string) (aberrate : bool) (et : R) :
  In et (sample_epochs (str2et (strftime date0)) (str2et (strftime date1)) steps) ->
  spkpos spacecraft et "BC_MSO" "NONE" "MERCURY" = None
  \/ (aberrate = true /\ spkpos "MERCURY" et "J2000" "NONE" "SUN" = None) ->
  Get_Trajectory str2et spkpos spacecraft [date0; date1] steps frame aberrate
  = Raise SpiceyError.
Proof.
  intros Hin Hgap. rewrite Get_Trajectory_eq. cbv zeta.
  set (times := sample_epochs _ _ _) in *.
  destruct (for_each (fun et => query spkpos spacecraft et "BC_MSO" "MERCURY") times)
    as [ps | e | ] eqn:E1; cbn [bind].
  - destruct Hgap as [Hgap | [-> Hgap]].
    + destruct (In_nth_error _ _ Hin) as [i Hi].
      destruct (for_each_nth _ _ _ E1 i et Hi) as (p & Hq & _).
      unfold query in Hq. rewrite Hgap in Hq. discriminate.
    + rewrite (for_each_raises _ _ SpiceyError); [reflexivity | | ].
      * intros [p t] _. apply Aberrate_Position_cases.
      * destruct (in_combine_right ps times et) as [p Hp];
          [now apply for_each_length in E1 | exact Hin | ].
        exists (p, et). split; [exact Hp | ].
        rewrite Aberrate_Position_eq, Hgap. reflexivity.
  - destruct (for_each_outcomes
                (fun et => query spkpos spacecraft et "BC_MSO" "MERCURY") times SpiceyError)
      as [H | [bs H]]; [intros; apply query_cases | congruence | congruence].
  - destruct (for_each_outcomes
                (fun et => query spkpos spacecraft et "BC_MSO" "MERCURY") times SpiceyError)
      as [H | [bs H]]; [intros; apply query_cases | congruence | congruence].
Qed.
End SamplerMore.

Section SamplerSamples.
Variable str2et : Z -> R.
Variable spkpos : string -> R -> string -> string -> string -> option vec3.

(** Every frame name other than "MSM" is treated as "MSO". *)
Theorem Get_Trajectory_frame_default (spacecraft : string) (dates : list Z)
    (steps : Z) (frame : string) (aberrate : bool) :
  frame <> "MSM"%string ->
  Get_Trajectory str2et spkpos spacecraft dates steps frame aberrate
  = Get_Trajectory str2et spkpos spacecraft dates steps "MSO" aberrate.
Proof.
  intros Hf. unfold Get_Trajectory.
  destruct dates as [ | date0 [ | date1 dates]]; try reflexivity.
  cbv zeta. destruct (for_each _ _) as [ps | e | ]; cbn [bind]; try reflexivity.
  destruct (if aberrate then _ else _) as [qs | e | ]; cbn [bind]; try reflexivity.
  destruct (String.eqb_spec frame "MSM") as [-> | _]; [contradiction | ].
  destruct (String.eqb frame "MSO"); reflexivity.
Qed.

(** With fewer than two dates [Get_Trajectory] raises [IndexError] before
    any position is queried; dates after the second are not looked at. *)
Theorem Get_Trajectory_dates (spacecraft : string) (steps : Z) (frame : string)
    (aberrate : bool) :
  (forall dates, (length dates < 2)%nat ->
     Get_Trajectory str2et spkpos spacecraft dates steps frame aberrate = Raise IndexError)
  /\ (forall date0 date1 more,
        Get_Trajectory str2et spkpos spacecraft (date0 :: date1 :: more) steps frame aberrate
        = Get_Trajectory str2et spkpos spacecraft [date0; date1] steps frame aberrate).
Proof.
  split.
  - intros [ | date0 [ | date1 dates]] Hlen; try reflexivity. cbn [length] in Hlen. lia.
  - reflexivity.
Qed.

(** Sample [i] of a returned trajectory is the provider's position of the
    spacecraft at epoch [i], rotated by the aberration angle of Mercury's
    distance at that same epoch when aberration is requested, and shifted
    when the frame is "MSM". *)
Theorem Get_Trajectory_sample (spacecraft : string) (date0 date1 : Z)
    (steps : Z) (frame : string) (aberrate : bool) (trajectory : list vec3)
    (i : nat) (et : R) :
  Get_Trajectory str2et spkpos spacecraft [date0; date1] steps frame aberrate
    = Return trajectory ->
  nth_error (sample_epochs (str2et (strftime date0)) (str2et (strftime date1)) steps) i
    = Some et ->
  exists p q,
    spkpos spacecraft et "BC_MSO" "NONE" "MERCURY" = Some p
    /\ (if aberrate
        then exists m, spkpos "MERCURY" et "J2000" "NONE" "SUN" = Some m
                       /\ q = rotate_xy (aberration_angle_of (norm m)) p
        else q = p)
    /\ nth_error trajectory i
       = Some (if String.eqb frame "MSM" then dipole_shift q else q).
Proof.
  rewrite Get_Trajectory_eq. cbv zeta. set (times := sample_epochs _ _ _).
  intros H Hi.
  destruct (for_each _ times) as [ps | e | ] eqn:E1; cbn [bind] in H; try discriminate.
  destruct (for_each_nth _ _ _ E1 i et Hi) as (p & Hq & Hp).
  unfold query in Hq.
  destruct (spkpos spacecraft et "BC_MSO" "NONE" "MERCURY") as [p' | ] eqn:Ep;
    [ | discriminate].
  injection Hq as ->.
  assert (Hlast : forall qs q,
            (if String.eqb frame "MSM"
             then match qs with
                  | [] => Raise IndexError
                  | _ :: _ => Return (map dipole_shift qs)
                  end
             else Return qs) = Return trajectory ->
            nth_error qs i = Some q ->
            nth_error trajectory i
            = Some (if String.eqb frame "MSM" then dipole_shift q else q)).
  { intros qs q Hret Hq. destruct (String.eqb frame "MSM").
    - destruct qs as [ | q0 qs]; [discriminate | ].
      assert (Ht : trajectory = map dipole_shift (q0 :: qs)) by congruence.
      rewrite Ht, nth_error_map, Hq. reflexivity.
    - injection Hret as <-. exact Hq. }
  destruct aberrate; cbn [bind] in H.
  - destruct (for_each _ (combine ps times)) as [qs | e | ] eqn:E2; cbn [bind] in H;
      try discriminate.
    destruct (for_each_nth _ _ _ E2 i (p, et) (nth_error_combine _ _ _ _ _ Hp Hi))
      as (q & Hq & Hqi).
    rewrite Aberrate_Position_eq in Hq.
    destruct (spkpos "MERCURY" et "J2000" "NONE" "SUN") as [m | ]; [ | discriminate].
    injection Hq as <-.
    exists p, (rotate_xy (aberration_angle_of (norm m)) p).
    split; [reflexivity | ]. split; [exists m; now split | now apply (Hlast qs)].
  - exists p, p.
    split; [reflexivity | ]. split; [reflexivity | now apply (Hlast ps)].
Qed.

(** [Get_Range_From_Date] on the empty list returns the empty list; a
    single date behaves as the one-element list of that date; a data gap at
    any date raises; and every distance returned is non-negative. *)
Theorem Get_Range_From_Date_edges (spacecraft : string) :
  Get_Range_From_Date str2et spkpos spacecraft (DateList []) = Return (Distances [])
  /\ (forall date,
        Get_Range_From_Date str2et spkpos spacecraft (OneDate date)
        = Get_Range_From_Date str2et spkpos spacecraft (DateList [date]))
  /\ (forall dates date,
        In date dates ->
        spkpos spacecraft (str2et (strftime date)) "BC_MSO" "NONE" "MERCURY" = None ->
        Get_Range_From_Date str2et spkpos spacecraft (DateList dates) = Raise SpiceyError)
  /\ (forall dates,
        match Get_Range_From_Date str2et spkpos spacecraft dates with
        | Return (Scalar distance) => (0 <= distance)%R
        | Return (Distances distances) => Forall (fun d => (0 <= d)%R) distances
        | Raise e => e = SpiceyError
        | OutOfFuel => False
        end).
Proof.
  assert (Hcases : forall date,
            range_at str2et spkpos spacecraft date = Raise SpiceyError
            \/ exists d, range_at str2et spkpos spacecraft date = Return d).
  { intros date. unfold range_at, query. destruct (spkpos _ _ _ _ _); cbn [bind]; eauto. }
  assert (Hpos : forall l ds,
            for_each (range_at str2et spkpos spacecraft) l = Return ds ->
            Forall (fun d => (0 <= d)%R) ds).
  { induction l as [ | date l IH]; cbn [for_each]; intros ds H.
    - injection H as <-. constructor.
    - unfold range_at at 1, query in H.
      destruct (spkpos _ _ _ _ _) as [p | ]; cbn [bind] in H; [ | discriminate].
      destruct (for_each _ l) as [ds' | e | ]; cbn [bind] in H; try discriminate.
      injection H as <-. constructor; [apply norm_nonneg | now apply IH]. }
  split; [reflexivity | ]. split; [reflexivity | ]. split.
  - intros dates date Hin Hgap. unfold Get_Range_From_Date.
    rewrite (for_each_raises _ _ SpiceyError); [reflexivity | intros; apply Hcases | ].
    exists date. split; [exact Hin | ]. unfold range_at, query. rewrite Hgap. reflexivity.
  - intros dates. unfold Get_Range_From_Date.
    set (l := match dates with OneDate date => [date] | DateList l => l end).
    destruct (for_each_outcomes (range_at str2et spkpos spacecraft) l SpiceyError Hcases)
      as [-> | [ds Hds]]; [reflexivity | ].
    rewrite Hds. cbn [bind]. apply Hpos in Hds.
    destruct ds as [ | d [ | d' ds]]; try exact Hds.
    now inversion Hds.
Qed.
End SamplerSamples.

(** ** More on the apoapsis searches *)

(** The midpoint used by the reduction lies in the interval, within half a
    microsecond of the exact midpoint. *)
Theorem interval_midpoint_bounds (start_time end_time : Z) :
  start_time <= end_time ->
  start_time <= start_time + divide_and_round (end_time - start_time) 2 <= end_time
  /\ Z.abs (2 * (start_time + divide_and_round (end_time - start_time) 2)
            - (start_time + end_time)) <= 1.
Proof.
  intros Hle. unfold divide_and_round.
  remember (end_time - start_time) as a eqn:Ea.
  assert (Ha : 0 <= a) by lia.
  pose proof (Z.div_mod a 2 ltac:(lia)) as Hdm.
  pose proof (Z.mod_pos_bound a 2 ltac:(lia)) as Hm.
  pose proof (Z.mod_pos_bound (a / 2) 2 ltac:(lia)) as Hq.
  change (0 <? 2) with true. cbv iota zeta.
  destruct (Z.ltb_spec 2 (2 * (a mod 2))) as [H1 | H1]; cbn [orb]; [lia | ].
  destruct (Z.eqb_spec (2 * (a mod 2)) 2) as [H2 | H2]; cbn [andb].
  - destruct (Z.eqb_spec ((a / 2) mod 2) 1) as [H3 | H3]; lia.
  - lia.
Qed.

Lemma take_indices_length {A : Type} (d : A) (l : list A) (indices : list nat) :
  length (take_indices d l indices) = length indices.
Proof. apply length_map. Qed.

(** The reduction keeps a run of consecutive peaks, as many as the target
    when there were more, all of them otherwise. *)
Lemma reduce_apoapsides_segment (start_time end_time n : Z)
    (altitudes : list R) (times : list Z) :
  0 <= n ->
  forall fuel peak_indices kept_altitudes kept_times,
  reduce_apoapsides fuel start_time end_time n
    (take_indices 0%R altitudes peak_indices) (take_indices 0 times peak_indices)
    = Return (kept_altitudes, kept_times) ->
  exists before kept after,
    peak_indices = before ++ kept ++ after
    /\ kept_altitudes = take_indices 0%R altitudes kept
    /\ kept_times = take_indices 0 times kept
    /\ Z.of_nat (length kept) = Z.min (Z.of_nat (length peak_indices)) n.
Proof.
  intros Hn. induction fuel as [ | fuel IH]; intros pk ka kt H; cbn [reduce_apoapsides] in H;
    [discriminate | ].
  rewrite take_indices_length in H.
  destruct (Z.ltb_spec n (Z.of_nat (length pk))) as [Hlt | Hge].
  - cbv zeta in H. destruct (_ <? _).
    + unfold take_indices in H. rewrite !tl_map in H.
      destruct (IH _ _ _ H) as (before & kept & after & Hpk & Ha & Ht & Hlen).
      destruct pk as [ | p pk]; [cbn [length] in Hlt; lia | ]. cbn [tl] in *.
      exists (p :: before), kept, after.
      split; [now rewrite Hpk | ]. split; [exact Ha | ]. split; [exact Ht | ].
      cbn [length] in Hlt |- *. lia.
    + destruct (_ <? _); [ | discriminate].
      unfold take_indices in H. rewrite !removelast_map in H.
      destruct (IH _ _ _ H) as (before & kept & after & Hpk & Ha & Ht & Hlen).
      destruct pk as [ | p pk]; [cbn [length] in Hlt; lia | ].
      exists before, kept, (after ++ [last (p :: pk) O]).
      rewrite removelast_length in Hlen.
      split; [ | split; [exact Ha | split; [exact Ht | cbn [length] in Hlt, Hlen |- *; lia]]].
      rewrite (app_removelast_last O (l := p :: pk)) at 1 by discriminate.
      rewrite Hpk, <- !app_assoc. reflexivity.
  - injection H as <- <-. exists [], pk, []. rewrite app_nil_r.
    split; [reflexivity | ]. split; [reflexivity | ]. split; [reflexivity | lia].
Qed.

Lemma reduce_apoapsides_cases (start_time end_time n : Z) :
  0 <= n ->
  forall fuel altitudes times,
  (length altitudes < fuel)%nat ->
  reduce_apoapsides fuel start_time end_time n altitudes times = Raise ValueError
  \/ exists kept, reduce_apoapsides fuel start_time end_time n altitudes times = Return kept.
Proof.
  intros Hn. induction fuel as [ | fuel IH]; intros a t Hf; [lia | ].
  cbn [reduce_apoapsides].
  destruct (Z.ltb_spec n (Z.of_nat (length a))) as [Hlt | Hge]; [ | right; eauto].
  cbv zeta. destruct (_ <? _).
  - apply IH; rewrite length_tl; lia.
  - destruct (_ <? _); [ | now left].
    apply IH; rewrite removelast_length; lia.
Qed.

Lemma nth_segment {A : Type} (before kept after : list A) (d : A) (k : nat) :
  (k < length kept)%nat ->
  nth k kept d = nth (length before + k) (before ++ kept ++ after) d.
Proof.
  intros Hk. rewrite app_nth2_plus, app_nth1 by assumption. reflexivity.
Qed.

Section SeriesFacts.
Variable str2et : Z -> R.
Variable spkpos : string -> R -> string -> string -> string -> option vec3.

Lemma range_at_cases (spacecraft : string) (date : Z) :
  range_at str2et spkpos spacecraft date = Raise SpiceyError
  \/ exists d, range_at str2et spkpos spacecraft date = Return d.
Proof. unfold range_at, query. destruct (spkpos _ _ _ _ _); cbn [bind]; eauto. Qed.

Lemma altitude_series_samples (spacecraft : string) (start_time end_time time_delta : Z)
    (altitudes : list R) (times : list Z) :
  0 < time_delta ->
  altitude_series str2et spkpos spacecraft start_time end_time time_delta
    = Return (altitudes, times) ->
  length altitudes = length times
  /\ length times = Z.to_nat ((end_time - start_time + time_delta - 1) / time_delta)
  /\ forall k, (k < length times)%nat ->
       nth k times 0 = start_time + Z.of_nat k * time_delta
       /\ start_time <= nth k times 0 < end_time
       /\ range_at str2et spkpos spacecraft (nth k times 0) = Return (nth k altitudes 0%R).
Proof.
  intros Hd Hs. destruct (altitude_series_inv _ _ _ _ _ _ _ _ Hd Hs) as [Ht Ha].
  pose proof (for_each_length _ _ _ Ha) as Hlen.
  split; [exact Hlen | ]. split.
  - rewrite Ht. unfold window_times. now rewrite grid_times_length.
  - intros k Hk.
    assert (Hw := Hk). rewrite Ht in Hw.
    destruct (window_times_nth _ _ _ _ Hd Hw) as [H1 H2]. rewrite <- Ht in H1, H2.
    split; [exact H1 | ]. split; [exact H2 | ].
    destruct (nth_error times k) as [t | ] eqn:Et;
      [ | apply nth_error_None in Et; lia].
    destruct (for_each_nth _ _ _ Ha k t Et) as (a & Hr & Hak).
    rewrite (nth_error_nth_dflt _ _ _ 0 Et), (nth_error_nth_dflt _ _ _ 0%R Hak). exact Hr.
Qed.

(** For a positive step the altitude series has one sample per grid point
    of [[start_time, end_time)], as many as the interval divided by the step
    rounded up; sample [k] is taken at [start_time + k * time_delta] and is
    the range of the spacecraft at that time. *)
Theorem altitude_series_shape (spacecraft : string) (start_time end_time time_delta : Z)
    (altitudes : list R) (times : list Z) :
  0 < time_delta ->
  altitude_series str2et spkpos spacecraft start_time end_time time_delta
    = Return (altitudes, times) ->
  length altitudes = length times
  /\ length times = Z.to_nat ((end_time - start_time + time_delta - 1) / time_delta)
  /\ forall k, (k < length times)%nat ->
       nth k times 0 = start_time + Z.of_nat k * time_delta
       /\ start_time <= nth k times 0 < end_time
       /\ range_at str2et spkpos spacecraft (nth k times 0) = Return (nth k altitudes 0%R).
Proof. apply altitude_series_samples. Qed.

(** An interval that is empty or reversed yields no sample and no query,
    for every step and every provider. *)
Lemma altitude_series_empty (spacecraft : string) (start_time end_time time_delta : Z) :
  end_time <= start_time ->
  altitude_series str2et spkpos spacecraft start_time end_time time_delta = Return ([], []).
Proof.
  intros Hle. unfold altitude_series, sampling_fuel. cbn [sample_altitudes].
  destruct (Z.ltb_spec start_time end_time); [lia | reflexivity].
Qed.

Lemma altitude_series_cases (spacecraft : string) (start_time end_time time_delta : Z) :
  0 < time_delta ->
  altitude_series str2et spkpos spacecraft start_time end_time time_delta
    = Raise SpiceyError
  \/ exists altitudes times,
       altitude_series str2et spkpos spacecraft start_time end_time time_delta
       = Return (altitudes, times).
Proof.
  intros Hd. rewrite altitude_series_eq by assumption.
  destruct (for_each_outcomes (range_at str2et spkpos spacecraft)
              (window_times start_time end_time time_delta) SpiceyError
              (range_at_cases spacecraft)) as [-> | [bs ->]]; cbn [bind]; eauto.
Qed.

Lemma altitude_series_gap (spacecraft : string) (start_time end_time time_delta t : Z) :
  0 < time_delta -> start_time <= t < end_time -> (t - start_time) mod time_delta = 0 ->
  spkpos spacecraft (str2et (strftime t)) "BC_MSO" "NONE" "MERCURY" = None ->
  altitude_series str2et spkpos spacecraft start_time end_time time_delta
  = Raise SpiceyError.
Proof.
  intros Hd Ht Hmod Hgap. rewrite altitude_series_eq by assumption.
  rewrite (for_each_raises _ _ SpiceyError); [reflexivity | | ].
  - intros a _. apply range_at_cases.
  - exists t. split.
    + replace t with (start_time + (t - start_time) / time_delta * time_delta).
      * apply window_times_complete; [assumption | apply Z.div_pos; lia | ].
        pose proof (Z.div_mod (t - start_time) time_delta ltac:(lia)). nia.
      * pose proof (Z.div_mod (t - start_time) time_delta ltac:(lia)). nia.
    + unfold range_at, query. rewrite Hgap. reflexivity.
Qed.
End SeriesFacts.

Section ApoapsisMore.
Variable str2et : Z -> R.
Variable spkpos : string -> R -> string -> string -> string -> option vec3.

Lemma Get_All_Apoapsis_In_Range_inv (start_time end_time time_delta n : Z)
    (spacecraft : string) (apoapsis_altitudes : list R) (apoapsis_times : list Z) :
  Get_All_Apoapsis_In_Range str2et spkpos start_time end_time time_delta n spacecraft
    = Return (apoapsis_altitudes, apoapsis_times) ->
  exists altitudes times before kept after,
    altitude_series str2et spkpos spacecraft start_time end_time time_delta
      = Return (altitudes, times)
    /\ find_peaks altitudes = before ++ kept ++ after
    /\ apoapsis_altitudes = take_indices 0%R altitudes kept
    /\ apoapsis_times = take_indices 0 times kept
    /\ (0 < n -> Z.of_nat (length kept) = Z.min (Z.of_nat (length (find_peaks altitudes))) n)
    /\ (n <= 0 -> kept = find_peaks altitudes).
Proof.
  intros H.
  destruct (altitude_series str2et spkpos spacecraft start_time end_time time_delta)
    as [[altitudes times] | e | ] eqn:Hs;
    try (unfold Get_All_Apoapsis_In_Range in H; rewrite Hs in H; discriminate).
  rewrite (Get_All_Apoapsis_In_Range_eq _ _ _ _ _ _ _ _ _ Hs) in H.
  exists altitudes, times.
  destruct (Z.ltb_spec 0 n) as [Hn | Hn].
  - unfold reduction_of in H.
    apply reduce_apoapsides_segment in H; [ | lia].
    destruct H as (before & kept & after & H1 & H2 & H3 & H4).
    exists before, kept, after.
    split; [reflexivity | ]. split; [exact H1 | ]. split; [exact H2 | ].
    split; [exact H3 | ]. split; [intros _; exact H4 | intros; lia].
  - injection H as <- <-. exists [], (find_peaks altitudes), [].
    rewrite app_nil_r.
    split; [reflexivity | ]. split; [reflexivity | ]. split; [reflexivity | ].
    split; [reflexivity | ]. split; [intros; lia | reflexivity].
Qed.

Lemma Get_Nearest_Apoapsis_inv (time time_delta time_limit : Z) (spacecraft : string)
    (apoapsis_time : Z) (apoapsis_altitude : R) :
  Get_Nearest_Apoapsis str2et spkpos time time_delta time_limit spacecraft
    = Return (apoapsis_time, apoapsis_altitude) ->
  exists altitudes times k,
    altitude_series str2et spkpos spacecraft (time - time_limit) (time + time_limit)
      time_delta = Return (altitudes, times)
    /\ argmin (map (fun i => Z.abs (time - nth i times 0)) (find_peaks altitudes))
       = Return k
    /\ (k < length (find_peaks altitudes))%nat
    /\ apoapsis_time = nth (nth k (find_peaks altitudes) O) times 0
    /\ apoapsis_altitude = nth (nth k (find_peaks altitudes) O) altitudes 0%R.
Proof.
  unfold Get_Nearest_Apoapsis. intros H.
  destruct (altitude_series _ _ _ _ _ _) as [[altitudes times] | e | ]; cbn [bind] in H;
    try discriminate.
  destruct (argmin _) as [k | e | ] eqn:Hk; cbn [bind] in H; try discriminate.
  injection H as <- <-. exists altitudes, times, k.
  pose proof (argmin_spec _ _ Hk) as (Hlen & _). rewrite length_map in Hlen.
  repeat split; try reflexivity; assumption.
Qed.

Lemma peak_sample (spacecraft : string) (start_time end_time time_delta : Z)
    (altitudes : list R) (times : list Z) (p : nat) :
  0 < time_delta ->
  altitude_series str2et spkpos spacecraft start_time end_time time_delta
    = Return (altitudes, times) ->
  In p (find_peaks altitudes) ->
  nth p times 0 = start_time + Z.of_nat p * time_delta
  /\ start_time + time_delta <= nth p times 0
  /\ nth p times 0 + time_delta < end_time
  /\ range_at str2et spkpos spacecraft (nth p times 0) = Return (nth p altitudes 0%R).
Proof.
  intros Hd Hs Hp.
  destruct (find_peaks_plateau _ _ Hp) as (l & r & H1 & H2 & H3 & H4 & _).
  destruct (altitude_series_samples _ _ _ _ _ _ _ _ Hd Hs) as (Hlen & _ & Hk).
  destruct (Hk p ltac:(lia)) as (Ep & _ & Hr).
  destruct (Hk (p + 1)%nat ltac:(lia)) as (Ep' & Hb & _).
  split; [exact Ep | ]. split; [nia | ]. split; [ | exact Hr]. nia.
Qed.

(** A data gap at any grid time of the interval makes
    [Get_All_Apoapsis_In_Range] raise. *)
Theorem Get_All_Apoapsis_In_Range_data_gap (start_time end_time time_delta n t : Z)
    (spacecraft : string) :
  0 < time_delta -> start_time <= t < end_time -> (t - start_time) mod time_delta = 0 ->
  spkpos spacecraft (str2et (strftime t)) "BC_MSO" "NONE" "MERCURY" = None ->
  Get_All_Apoapsis_In_Range str2et spkpos start_time end_time time_delta n spacecraft
  = Raise SpiceyError.
Proof.
  intros Hd Ht Hmod Hgap. unfold Get_All_Apoapsis_In_Range.
  now rewrite (altitude_series_gap str2et spkpos spacecraft _ _ _ t Hd Ht Hmod Hgap).
Qed.

(** A data gap at any grid time of the window makes [Get_Nearest_Apoapsis]
    raise, however far that time is from the reference time. *)
Theorem Get_Nearest_Apoapsis_data_gap (time time_delta time_limit t : Z)
    (spacecraft : string) :
  0 < time_delta -> time - time_limit <= t < time + time_limit ->
  (t - (time - time_limit)) mod time_delta = 0 ->
  spkpos spacecraft (str2et (strftime t)) "BC_MSO" "NONE" "MERCURY" = None ->
  Get_Nearest_Apoapsis str2et spkpos time time_delta time_limit spacecraft
  = Raise SpiceyError.
Proof.
  intros Hd Ht Hmod Hgap. unfold Get_Nearest_Apoapsis.
  now rewrite (altitude_series_gap str2et spkpos spacecraft _ _ _ t Hd Ht Hmod Hgap).
Qed.

(** An empty or reversed interval gives no apoapsis and no error, for every
    step, target count and provider. *)
Theorem Get_All_Apoapsis_In_Range_empty_interval (start_time end_time time_delta n : Z)
    (spacecraft : string) :
  end_time <= start_time ->
  Get_All_Apoapsis_In_Range str2et spkpos start_time end_time time_delta n spacecraft
  = Return ([], []).
Proof.
  intros Hle.
  rewrite (Get_All_Apoapsis_In_Range_eq str2et spkpos _ _ _ _ _ [] []
             (altitude_series_empty str2et spkpos spacecraft _ _ time_delta Hle)).
  change (find_peaks []) with (@nil nat). cbn [take_indices map].
  destruct (Z.ltb_spec 0 n) as [Hn | Hn]; [ | reflexivity].
  rewrite reduction_of_unfold by lia. cbn [length].
  destruct (Z.ltb_spec n (Z.of_nat 0)) as [H0 | H0]; [cbn in H0; lia | reflexivity].
Qed.

(** With a window of at most two samples [Get_Nearest_Apoapsis] cannot
    succeed: a non-positive limit always raises [ValueError], and a limit
    of at most one step raises [ValueError], or [SpiceyError] on a data
    gap. *)
Theorem Get_Nearest_Apoapsis_short_window (time time_delta time_limit : Z)
    (spacecraft : string) :
  (time_limit <= 0 ->
   Get_Nearest_Apoapsis str2et spkpos time time_delta time_limit spacecraft
   = Raise ValueError)
  /\ (0 < time_delta -> time_limit <= time_delta ->
      Get_Nearest_Apoapsis str2et spkpos time time_delta time_limit spacecraft
        = Raise ValueError
      \/ Get_Nearest_Apoapsis str2et spkpos time time_delta time_limit spacecraft
         = Raise SpiceyError).
Proof.
  split.
  - intros Hl. unfold Get_Nearest_Apoapsis.
    rewrite altitude_series_empty by lia. reflexivity.
  - intros Hd Hl. unfold Get_Nearest_Apoapsis.
    destruct (altitude_series_cases str2et spkpos spacecraft (time - time_limit)
                (time + time_limit) time_delta Hd) as [-> | (altitudes & times & Hs)];
      [now right | left].
    rewrite Hs. cbn [bind].
    destruct (altitude_series_samples _ _ _ _ _ _ _ _ Hd Hs) as (Hlen & Hcount & _).
    assert (Hshort : (length altitudes <= 2)%nat).
    { rewrite Hlen, Hcount.
      assert ((time + time_limit - (time - time_limit) + time_delta - 1) / time_delta < 3);
        [ | lia].
      apply Z.div_lt_upper_bound; lia. }
    destruct (find_peaks altitudes) as [ | p ps] eqn:E; [reflexivity | ].
    assert (Hp : In p (find_peaks altitudes)) by (rewrite E; now left).
    destruct (find_peaks_plateau _ _ Hp) as (l & r & H1 & H2 & H3 & H4 & _). lia.
Qed.

(** [Get_All_Apoapsis_In_Range] either raises [ValueError] or returns a run
    of consecutive detected peaks: all of them when the target count is not
    positive, otherwise as many as the target or all when fewer were
    detected. *)
Theorem Get_All_Apoapsis_In_Range_count (start_time end_time time_delta n : Z)
    (spacecraft : string) (altitudes : list R) (times : list Z) :
  altitude_series str2et spkpos spacecraft start_time end_time time_delta
    = Return (altitudes, times) ->
  (n <= 0 \/ Z.of_nat (length (find_peaks altitudes)) <= n ->
   Get_All_Apoapsis_In_Range str2et spkpos start_time end_time time_delta n spacecraft
   = Return (take_indices 0%R altitudes (find_peaks altitudes),
             take_indices 0 times (find_peaks altitudes)))
  /\ (Get_All_Apoapsis_In_Range str2et spkpos start_time end_time time_delta n spacecraft
        = Raise ValueError
      \/ exists before kept after,
           find_peaks altitudes = before ++ kept ++ after
           /\ Get_All_Apoapsis_In_Range str2et spkpos start_time end_time time_delta n
                spacecraft
              = Return (take_indices 0%R altitudes kept, take_indices 0 times kept)
           /\ Z.of_nat (length kept)
              = if 0 <? n then Z.min (Z.of_nat (length (find_peaks altitudes))) n
                else Z.of_nat (length (find_peaks altitudes))).
Proof.
  intros Hs. rewrite (Get_All_Apoapsis_In_Range_eq _ _ _ _ _ _ _ _ _ Hs). split.
  - intros Hcase. destruct (Z.ltb_spec 0 n) as [Hn | Hn]; [ | reflexivity].
    rewrite reduction_of_unfold by lia. rewrite take_indices_length.
    destruct (Z.ltb_spec n (Z.of_nat (length (find_peaks altitudes)))); [lia | reflexivity].
  - destruct (Z.ltb_spec 0 n) as [Hn | Hn].
    + unfold reduction_of.
      destruct (reduce_apoapsides_cases start_time end_time n ltac:(lia)
                  (S (length (take_indices 0%R altitudes (find_peaks altitudes))))
                  (take_indices 0%R altitudes (find_peaks altitudes))
                  (take_indices 0 times (find_peaks altitudes)) ltac:(lia))
        as [H | [[ka kt] H]]; [now left | right].
      apply reduce_apoapsides_segment in H as Hseg; [ | lia].
      destruct Hseg as (before & kept & after & H1 & H2 & H3 & H4).
      exists before, kept, after. rewrite H, H2, H3. repeat split; assumption.
    + right. exists [], (find_peaks altitudes), []. rewrite app_nil_r.
      repeat split; reflexivity.
Qed.

(** The apoapsides [Get_All_Apoapsis_In_Range] returns are in increasing
    time order, at least two steps apart, at least one step inside the
    interval at both ends, and each altitude is the range of the spacecraft
    at the time returned with it. *)
Theorem Get_All_Apoapsis_In_Range_ordered (start_time end_time time_delta n : Z)
    (spacecraft : string) (apoapsis_altitudes : list R) (apoapsis_times : list Z) :
  0 < time_delta ->
  Get_All_Apoapsis_In_Range str2et spkpos start_time end_time time_delta n spacecraft
    = Return (apoapsis_altitudes, apoapsis_times) ->
  length apoapsis_altitudes = length apoapsis_times
  /\ (forall a b, (a < b < length apoapsis_times)%nat ->
        nth a apoapsis_times 0 + 2 * time_delta <= nth b apoapsis_times 0)
  /\ (forall k, (k < length apoapsis_times)%nat ->
        start_time + time_delta <= nth k apoapsis_times 0
        /\ nth k apoapsis_times 0 + time_delta < end_time
        /\ range_at str2et spkpos spacecraft (nth k apoapsis_times 0)
           = Return (nth k apoapsis_altitudes 0%R)).
Proof.
  intros Hd H.
  destruct (Get_All_Apoapsis_In_Range_inv _ _ _ _ _ _ _ H)
    as (altitudes & times & before & kept & after & Hs & Hpk & -> & -> & _).
  rewrite !take_indices_length. unfold take_indices.
  assert (Hin : forall k, (k < length kept)%nat -> In (nth k kept O) (find_peaks altitudes)).
  { intros k Hk. rewrite Hpk. apply in_or_app. right. apply in_or_app. left.
    now apply nth_In. }
  split; [reflexivity | ]. split.
  - intros a b Hab.
    rewrite !(nth_map_in_range _ kept O 0) by lia.
    destruct (peak_sample _ _ _ _ _ _ _ Hd Hs (Hin a ltac:(lia))) as (-> & _).
    destruct (peak_sample _ _ _ _ _ _ _ Hd Hs (Hin b ltac:(lia))) as (-> & _).
    pose proof (local_maxima_from_spaced Rltb Reqb 0%R altitudes (length altitudes - 1)
                  (length altitudes) 1 (length before + a) (length before + b)) as Hsp.
    fold (local_maxima_1d Rltb Reqb 0%R altitudes) in Hsp. fold (find_peaks altitudes) in Hsp.
    rewrite Hpk in Hsp at 1. rewrite !length_app in Hsp. specialize (Hsp ltac:(lia)).
    rewrite Hpk in Hsp. rewrite <- !nth_segment in Hsp by lia. nia.
  - intros k Hk.
    rewrite (nth_map_in_range _ kept O 0), (nth_map_in_range _ kept O 0%R) by lia.
    destruct (peak_sample _ _ _ _ _ _ _ Hd Hs (Hin k Hk)) as (_ & H1 & H2 & H3).
    now repeat split.
Qed.

(** What [Get_Nearest_Apoapsis] returns lies on the sampling grid, at least
    one step inside the window at both ends, hence closer to the reference
    time than the limit; and the altitude is the range of the spacecraft at
    the time returned. *)
Theorem Get_Nearest_Apoapsis_inside (time time_delta time_limit : Z) (spacecraft : string)
    (apoapsis_time : Z) (apoapsis_altitude : R) :
  0 < time_delta ->
  Get_Nearest_Apoapsis str2et spkpos time time_delta time_limit spacecraft
    = Return (apoapsis_time, apoapsis_altitude) ->
  (exists k, 1 <= k /\ apoapsis_time = time - time_limit + k * time_delta)
  /\ time - time_limit + time_delta <= apoapsis_time
  /\ apoapsis_time + time_delta < time + time_limit
  /\ Z.abs (apoapsis_time - time) < time_limit
  /\ range_at str2et spkpos spacecraft apoapsis_time = Return apoapsis_altitude.
Proof.
  intros Hd H.
  destruct (Get_Nearest_Apoapsis_inv _ _ _ _ _ _ H)
    as (altitudes & times & k & Hs & _ & Hk & -> & ->).
  set (p := nth k (find_peaks altitudes) O).
  assert (Hp : In p (find_peaks altitudes)) by now apply nth_In.
  clearbody p.
  destruct (peak_sample _ _ _ _ _ _ _ Hd Hs Hp) as (H1 & H2 & H3 & H4).
  destruct (find_peaks_plateau _ _ Hp) as (l & r & Hl & Hlp & _).
  split; [exists (Z.of_nat p); split; [lia | exact H1] | ].
  split; [exact H2 | ]. split; [exact H3 | ]. split; [ | exact H4].
  unfold datetime in *. lia.
Qed.

(** The apoapsis [Get_Nearest_Apoapsis] returns is one of those
    [Get_All_Apoapsis_In_Range] returns for the same window without a
    target count, none of which is nearer to the reference time, and none of
    the earlier ones is as near. *)
Theorem Get_Nearest_Apoapsis_among_all (time time_delta time_limit : Z)
    (spacecraft : string) (apoapsis_time : Z) (apoapsis_altitude : R) :
  Get_Nearest_Apoapsis str2et spkpos time time_delta time_limit spacecraft
    = Return (apoapsis_time, apoapsis_altitude) ->
  exists apoapsis_altitudes apoapsis_times k,
    Get_All_Apoapsis_In_Range str2et spkpos (time - time_limit) (time + time_limit)
      time_delta 0 spacecraft = Return (apoapsis_altitudes, apoapsis_times)
    /\ nth_error apoapsis_times k = Some apoapsis_time
    /\ nth_error apoapsis_altitudes k = Some apoapsis_altitude
    /\ (forall j t, nth_error apoapsis_times j = Some t ->
          Z.abs (time - apoapsis_time) <= Z.abs (time - t))
    /\ (forall j t, (j < k)%nat -> nth_error apoapsis_times j = Some t ->
          Z.abs (time - apoapsis_time) < Z.abs (time - t)).
Proof.
  intros H.
  destruct (Get_Nearest_Apoapsis_inv _ _ _ _ _ _ H)
    as (altitudes & times & k & Hs & Hmin & Hk & -> & ->).
  exists (take_indices 0%R altitudes (find_peaks altitudes)),
         (take_indices 0 times (find_peaks altitudes)), k.
  split; [now rewrite (Get_All_Apoapsis_In_Range_eq _ _ _ _ _ _ _ _ _ Hs) | ].
  unfold take_indices.
  assert (Hnth : forall j t,
            nth_error (map (fun i => nth i times 0) (find_peaks altitudes)) j = Some t ->
            (j < length (find_peaks altitudes))%nat
            /\ nth j (map (fun i => Z.abs (time - nth i times 0)) (find_peaks altitudes)) 0
               = Z.abs (time - t)).
  { intros j t Hj.
    assert (Hlt : (j < length (find_peaks altitudes))%nat).
    { rewrite <- (length_map (fun i => nth i times 0)). apply nth_error_Some. congruence. }
    split; [exact Hlt | ].
    rewrite (nth_map_in_range _ _ O 0) by assumption.
    apply (nth_error_nth_dflt _ _ _ 0) in Hj.
    rewrite (nth_map_in_range _ _ O 0) in Hj by assumption. now rewrite Hj. }
  destruct (argmin_spec _ _ Hmin) as (_ & Hle & Hfirst).
  rewrite length_map in Hle.
  rewrite (nth_map_in_range _ _ O 0) in Hle, Hfirst by assumption.
  split; [ | split; [ | split]].
  - rewrite nth_error_map, (nth_error_nth' _ O Hk). reflexivity.
  - rewrite nth_error_map, (nth_error_nth' _ O Hk). reflexivity.
  - intros j t Hj. destruct (Hnth j t Hj) as [Hlt <-]. now apply Hle.
  - intros j t Hjk Hj. destruct (Hnth j t Hj) as [Hlt <-]. now apply Hfirst.
Qed.
End ApoapsisMore.

(** ** The further properties at work *)

Lemma find_peaks_sawtooth : find_peaks [0; 1; 0; 1; 0]%R = [1; 3]%nat.
Proof. change [0; 1; 0; 1; 0]%R with (map IZR [0; 1; 0; 1; 0]). now rewrite find_peaks_IZR. Qed.

Lemma synthetic_three_peaks_run :
  Get_All_Apoapsis_In_Range Synthetic.str2et (Synthetic.spkpos Synthetic.three_peaks)
    0 (minutes 140) (minutes 5) 0 "MESSENGER"
  = Return (take_indices 0%R
              (map IZR (map (fun t => Synthetic.three_peaks (strftime t))
                            (window_times 0 (minutes 140) (minutes 5))))
              [2; 14; 26]%nat,
            [minutes 10; minutes 70; minutes 130]).
Proof.
  rewrite (Get_All_Apoapsis_In_Range_eq _ _ _ _ _ _ _ _ _
             (synthetic_altitude_series Synthetic.three_peaks "MESSENGER"
                0 (minutes 140) (minutes 5) eq_refl eq_refl)).
  change (0 <? 0) with false. cbv iota.
  rewrite find_peaks_IZR.
  set (samples := map _ (window_times 0 (minutes 140) (minutes 5))).
  assert (Hpk : find_peaks_Z samples = [2; 14; 26]%nat) by (vm_compute; reflexivity).
  rewrite Hpk.
  replace (take_indices 0 (window_times 0 (minutes 140) (minutes 5)) [2; 14; 26]%nat)
    with [minutes 10; minutes 70; minutes 130] by (vm_compute; reflexivity).
  reflexivity.
Qed.

Lemma synthetic_two_peaks_run :
  Get_Nearest_Apoapsis Synthetic.str2et (Synthetic.spkpos Synthetic.two_peaks)
    (hours 12) (hours 1) (hours 12) "MESSENGER"
  = Return (hours 13, IZR (10 ^ 19)).
Proof.
  unfold Get_Nearest_Apoapsis.
  rewrite (synthetic_altitude_series Synthetic.two_peaks "MESSENGER"
             (hours 12 - hours 12) (hours 12 + hours 12) (hours 1) eq_refl eq_refl).
  cbn [bind]. rewrite find_peaks_IZR.
  set (window := window_times (hours 12 - hours 12) (hours 12 + hours 12) (hours 1)).
  set (samples := map (fun t => Synthetic.two_peaks (strftime t)) window).
  assert (Hpk : find_peaks_Z samples = [9; 13]%nat) by (vm_compute; reflexivity).
  rewrite Hpk.
  assert (Hk : argmin (map (fun i => Z.abs (hours 12 - nth i window 0)) [9; 13]%nat)
               = Return 1%nat) by (vm_compute; reflexivity).
  rewrite Hk. cbn [bind nth].
  rewrite (nth_map_in_range IZR samples 0 0%R 13)
    by (apply Nat.ltb_lt; vm_compute; reflexivity).
  replace (nth 13 samples 0) with (10 ^ 19) by (vm_compute; reflexivity).
  replace (nth 13 window 0) with (hours 13) by (vm_compute; reflexivity).
  reflexivity.
Qed.

Lemma find_peaks_complete_witness : In 1%nat (find_peaks [0; 1; 0]%R).
Proof.
  apply find_peaks_complete; cbn [length nth Nat.sub Nat.add]; try lra.
  - apply le_n.
  - apply le_n.
Defined.

Lemma find_peaks_exact_witness :
  In 1%nat (find_peaks [0; 1; 0]%R)
  <-> (1 <= 1)%nat /\ (1 + 1 < 3)%nat /\ (0 < 1)%R /\ (0 < 1)%R.
Proof.
  apply (find_peaks_exact [0; 1; 0]%R 1).
  intros [ | [ | j]] Hj;
    [cbn [nth Nat.add]; lra | cbn [nth Nat.add]; lra | cbn [length] in Hj; lia].
Defined.

Lemma find_peaks_spaced_witness :
  (nth 0 (find_peaks [0; 1; 0; 1; 0]%R) O + 2 <= nth 1 (find_peaks [0; 1; 0; 1; 0]%R) O)%nat.
Proof.
  apply find_peaks_spaced. rewrite find_peaks_sawtooth. cbn [length]. lia.
Defined.

Lemma find_peaks_short_witness : find_peaks [1; 2]%R = [].
Proof. apply find_peaks_short. apply le_n. Defined.

Lemma find_peaks_monotone_witness : find_peaks [1; 2; 3]%R = [].
Proof.
  apply find_peaks_monotone. left.
  intros [ | [ | j]] Hj;
    [cbn [nth Nat.add]; lra | cbn [nth Nat.add]; lra | cbn [length] in Hj; lia].
Defined.

Lemma queries_ignore_microseconds_witness :
  Get_Position Synthetic.str2et (Synthetic.spkpos Synthetic.one_bump) "MESSENGER" 1000000
  = Get_Position Synthetic.str2et (Synthetic.spkpos Synthetic.one_bump) "MESSENGER" 1999999.
Proof.
  exact (proj1 (queries_ignore_microseconds Synthetic.str2et
                  (Synthetic.spkpos Synthetic.one_bump) "MESSENGER"
                  1000000 1999999 eq_refl)).
Defined.

Lemma Aberrate_Position_injective_witness :
  Aberrate_Position (Synthetic.spkpos Synthetic.level) (mkVec 1 2 3) 0
  = Return (rotate_xy (aberration_angle_of (norm (mkVec 7 0 0))) (mkVec 1 2 3))
  /\ mkVec 1 2 3 = mkVec 1 2 3.
Proof.
  assert (H : Aberrate_Position (Synthetic.spkpos Synthetic.level) (mkVec 1 2 3) 0
              = Return (rotate_xy (aberration_angle_of (norm (mkVec 7 0 0))) (mkVec 1 2 3))).
  { rewrite Aberrate_Position_eq. reflexivity. }
  split; [exact H | ].
  exact (Aberrate_Position_injective (Synthetic.spkpos Synthetic.level) _ _ _ _ H H).
Defined.

Lemma sample_epochs_spacing_witness :
  exists t t',
    nth_error (sample_epochs 0 2 4) 0 = Some t
    /\ nth_error (sample_epochs 0 2 4) (0 + 1) = Some t'
    /\ (t' - t = (2 - 0) / 4)%R
    /\ (0%R = 2%R -> t = 0%R /\ t' = 0%R).
Proof.
  apply (sample_epochs_spacing 0 2 4 0). cbn. lia.
Defined.

Lemma Get_Trajectory_data_gap_witness :
  Get_Trajectory Synthetic.str2et Synthetic.no_coverage "MESSENGER" [0; 2000000] 4
    "MSO" false = Raise SpiceyError.
Proof.
  apply (Get_Trajectory_data_gap Synthetic.str2et Synthetic.no_coverage "MESSENGER"
           0 2000000 4 "MSO" false
           (IZR (Z.of_nat 0) * (Synthetic.str2et (strftime 2000000%Z)
                                - Synthetic.str2et (strftime 0%Z)) / IZR 4
            + Synthetic.str2et (strftime 0%Z))%R).
  - left. reflexivity.
  - left. reflexivity.
Defined.

Lemma Get_Trajectory_frame_default_witness :
  Get_Trajectory Synthetic.str2et (Synthetic.spkpos Synthetic.level) "MESSENGER"
    [0; 2000000] 4 "J2000" true
  = Get_Trajectory Synthetic.str2et (Synthetic.spkpos Synthetic.level) "MESSENGER"
      [0; 2000000] 4 "MSO" true.
Proof. apply Get_Trajectory_frame_default. discriminate. Defined.

Lemma Get_Trajectory_dates_witness :
  Get_Trajectory Synthetic.str2et (Synthetic.spkpos Synthetic.level) "MESSENGER"
    [0] 4 "MSO" false = Raise IndexError.
Proof.
  apply (proj1 (Get_Trajectory_dates Synthetic.str2et (Synthetic.spkpos Synthetic.level)
                  "MESSENGER" 4 "MSO" false)).
  apply le_n.
Defined.

Lemma Get_Trajectory_sample_witness :
  exists p q,
    Synthetic.spkpos Synthetic.level "MESSENGER" (0 * (2 - 0) / 2 + 0)
      "BC_MSO" "NONE" "MERCURY" = Some p
    /\ (exists m, Synthetic.spkpos Synthetic.level "MERCURY" (0 * (2 - 0) / 2 + 0)
                    "J2000" "NONE" "SUN" = Some m
                  /\ q = rotate_xy (aberration_angle_of (norm m)) p)
    /\ nth_error [dipole_shift (rotate_xy (aberration_angle_of (norm (mkVec 7 0 0)))
                                  (mkVec 7 0 0));
                  dipole_shift (rotate_xy (aberration_angle_of (norm (mkVec 7 0 0)))
                                  (mkVec 7 0 0))] 0
       = Some (dipole_shift q).
Proof.
  assert (H : Get_Trajectory Synthetic.str2et (Synthetic.spkpos Synthetic.level)
                "MESSENGER" [0; 2000000] 2 "MSM" true
              = Return [dipole_shift (rotate_xy (aberration_angle_of (norm (mkVec 7 0 0)))
                                        (mkVec 7 0 0));
                        dipole_shift (rotate_xy (aberration_angle_of (norm (mkVec 7 0 0)))
                                        (mkVec 7 0 0))]).
  { rewrite Get_Trajectory_eq. cbv zeta. unfold sample_epochs.
    change (Z.to_nat 2) with 2%nat. cbn [seq map for_each bind combine].
    unfold query at 1 2. unfold Synthetic.spkpos at 1 2. cbn [bind for_each combine].
    rewrite !Aberrate_Position_eq. reflexivity. }
  exact (Get_Trajectory_sample Synthetic.str2et (Synthetic.spkpos Synthetic.level)
           "MESSENGER" 0 2000000 2 "MSM" true _ 0 _ H eq_refl).
Defined.

Lemma Get_Range_From_Date_edges_witness :
  Get_Range_From_Date Synthetic.str2et Synthetic.no_coverage "MESSENGER"
    (DateList [0; 60000000]) = Raise SpiceyError.
Proof.
  destruct (Get_Range_From_Date_edges Synthetic.str2et Synthetic.no_coverage "MESSENGER")
    as (_ & _ & Hgap & _).
  apply (Hgap [0; 60000000] 60000000); [right; left; reflexivity | reflexivity].
Defined.

Lemma interval_midpoint_bounds_witness :
  0 <= 0 + divide_and_round (3 - 0) 2 <= 3
  /\ Z.abs (2 * (0 + divide_and_round (3 - 0) 2) - (0 + 3)) <= 1.
Proof. apply interval_midpoint_bounds. discriminate. Defined.

Lemma altitude_series_shape_witness :
  length (window_times 0 (hours 3) (hours 1))
  = Z.to_nat ((hours 3 - 0 + hours 1 - 1) / hours 1).
Proof.
  exact (proj1 (proj2 (altitude_series_shape Synthetic.str2et
                         (Synthetic.spkpos Synthetic.level) "MESSENGER"
                         0 (hours 3) (hours 1) _ _ eq_refl
                         (synthetic_altitude_series Synthetic.level "MESSENGER"
                            0 (hours 3) (hours 1) eq_refl eq_refl)))).
Defined.

Lemma Get_All_Apoapsis_In_Range_data_gap_witness :
  Get_All_Apoapsis_In_Range Synthetic.str2et Synthetic.no_coverage
    0 (hours 3) (hours 1) 0 "MESSENGER" = Raise SpiceyError.
Proof.
  apply (Get_All_Apoapsis_In_Range_data_gap Synthetic.str2et Synthetic.no_coverage
           0 (hours 3) (hours 1) 0 (hours 2) "MESSENGER");
    [reflexivity | split; [discriminate | reflexivity] | reflexivity | reflexivity].
Defined.

Lemma Get_Nearest_Apoapsis_data_gap_witness :
  Get_Nearest_Apoapsis Synthetic.str2et Synthetic.no_coverage
    (hours 12) (hours 1) (hours 12) "MESSENGER" = Raise SpiceyError.
Proof.
  apply (Get_Nearest_Apoapsis_data_gap Synthetic.str2et Synthetic.no_coverage
           (hours 12) (hours 1) (hours 12) (hours 23) "MESSENGER");
    [reflexivity | split; [discriminate | reflexivity] | reflexivity | reflexivity].
Defined.

Lemma Get_All_Apoapsis_In_Range_empty_interval_witness :
  Get_All_Apoapsis_In_Range Synthetic.str2et Synthetic.no_coverage
    (hours 3) (hours 3) (hours 1) 2 "MESSENGER" = Return ([], []).
Proof. apply Get_All_Apoapsis_In_Range_empty_interval. discriminate. Defined.

Lemma Get_Nearest_Apoapsis_short_window_witness :
  Get_Nearest_Apoapsis Synthetic.str2et (Synthetic.spkpos Synthetic.level)
    (hours 12) (hours 1) 0 "MESSENGER" = Raise ValueError
  /\ (Get_Nearest_Apoapsis Synthetic.str2et (Synthetic.spkpos Synthetic.level)
        (hours 12) (hours 1) (hours 1) "MESSENGER" = Raise ValueError
      \/ Get_Nearest_Apoapsis Synthetic.str2et (Synthetic.spkpos Synthetic.level)
           (hours 12) (hours 1) (hours 1) "MESSENGER" = Raise SpiceyError).
Proof.
  split.
  - apply (proj1 (Get_Nearest_Apoapsis_short_window Synthetic.str2et
                    (Synthetic.spkpos Synthetic.level) (hours 12) (hours 1) 0 "MESSENGER")).
    discriminate.
  - apply (proj2 (Get_Nearest_Apoapsis_short_window Synthetic.str2et
                    (Synthetic.spkpos Synthetic.level) (hours 12) (hours 1) (hours 1)
                    "MESSENGER")); [reflexivity | discriminate].
Defined.

Lemma Get_All_Apoapsis_In_Range_count_witness :
  Get_All_Apoapsis_In_Range Synthetic.str2et (Synthetic.spkpos Synthetic.level)
    0 (hours 3) (hours 1) 0 "MESSENGER"
  = Return (take_indices 0%R [7; 7; 7]%R (find_peaks [7; 7; 7]%R),
            take_indices 0 [0; hours 1; hours 2] (find_peaks [7; 7; 7]%R)).
Proof.
  apply (proj1 (Get_All_Apoapsis_In_Range_count Synthetic.str2et
                  (Synthetic.spkpos Synthetic.level) 0 (hours 3) (hours 1) 0 "MESSENGER"
                  [7; 7; 7]%R [0; hours 1; hours 2]
                  (synthetic_altitude_series Synthetic.level "MESSENGER"
                     0 (hours 3) (hours 1) eq_refl eq_refl))).
  left. discriminate.
Defined.

Lemma Get_All_Apoapsis_In_Range_ordered_witness :
  minutes 10 + 2 * minutes 5 <= minutes 70
  /\ 0 + minutes 5 <= minutes 130 /\ minutes 130 + minutes 5 < minutes 140.
Proof.
  destruct (Get_All_Apoapsis_In_Range_ordered Synthetic.str2et
              (Synthetic.spkpos Synthetic.three_peaks) 0 (minutes 140) (minutes 5) 0
              "MESSENGER" _ _ eq_refl synthetic_three_peaks_run) as (_ & Horder & Hin).
  split.
  - apply (Horder 0%nat 1%nat). cbn [length]. lia.
  - destruct (Hin 2%nat) as (H1 & H2 & _); [cbn [length]; lia | ].
    split; [exact H1 | exact H2].
Defined.

Lemma Get_Nearest_Apoapsis_inside_witness :
  hours 12 - hours 12 + hours 1 <= hours 13
  /\ hours 13 + hours 1 < hours 12 + hours 12
  /\ Z.abs (hours 13 - hours 12) < hours 12.
Proof.
  destruct (Get_Nearest_Apoapsis_inside Synthetic.str2et
              (Synthetic.spkpos Synthetic.two_peaks) (hours 12) (hours 1) (hours 12)
              "MESSENGER" _ _ eq_refl synthetic_two_peaks_run) as (_ & H1 & H2 & H3 & _).
  split; [exact H1 | ]. split; [exact H2 | exact H3].
Defined.

Lemma Get_Nearest_Apoapsis_among_all_witness :
  exists apoapsis_altitudes apoapsis_times k,
    Get_All_Apoapsis_In_Range Synthetic.str2et (Synthetic.spkpos Synthetic.two_peaks)
      (hours 12 - hours 12) (hours 12 + hours 12) (hours 1) 0 "MESSENGER"
    = Return (apoapsis_altitudes, apoapsis_times)
    /\ nth_error apoapsis_times k = Some (hours 13).
Proof.
  destruct (Get_Nearest_Apoapsis_among_all Synthetic.str2et
              (Synthetic.spkpos Synthetic.two_peaks) (hours 12) (hours 1) (hours 12)
              "MESSENGER" _ _ synthetic_two_peaks_run)
    as (aa & at' & k & H1 & H2 & _).
  exists aa, at', k. split; [exact H1 | exact H2].
Defined.

(** ** The rounded midpoint and the trajectory without samples *)

(** C3 fails as stated.  In an interval of 7.000007 s sampled every
    1.000001 s the two detected peaks, 2.000002 s and 5.000005 s after the
    start, are exactly as far from the middle of the interval; the midpoint
    the code computes is rounded up by half a microsecond, so with target 1
    the first peak is dropped and no error is raised. *)
Lemma equidistant_peaks_not_rejected :
  Get_All_Apoapsis_In_Range Synthetic.str2et (Synthetic.spkpos Synthetic.two_bumps)
    0 7000007 1000001 0 "MESSENGER"
  = Return ([1; 1]%R, [2000002; 5000005])
  /\ Z.abs (2 * 2000002 - (0 + 7000007)) = Z.abs (2 * 5000005 - (0 + 7000007))
  /\ Get_All_Apoapsis_In_Range Synthetic.str2et (Synthetic.spkpos Synthetic.two_bumps)
       0 7000007 1000001 1 "MESSENGER"
     = Return ([1]%R, [5000005]).
Proof.
  assert (Hs : altitude_series Synthetic.str2et (Synthetic.spkpos Synthetic.two_bumps)
                 "MESSENGER" 0 7000007 1000001
               = Return ([0; 0; 1; 0; 0; 1; 0]%R,
                         [0; 1000001; 2000002; 3000003; 4000004; 5000005; 6000006])).
  { exact (synthetic_altitude_series Synthetic.two_bumps "MESSENGER"
             0 7000007 1000001 eq_refl eq_refl). }
  assert (Hpk : find_peaks [0; 0; 1; 0; 0; 1; 0]%R = [2; 5]%nat).
  { change [0; 0; 1; 0; 0; 1; 0]%R with (map IZR [0; 0; 1; 0; 0; 1; 0]).
    now rewrite find_peaks_IZR. }
  split; [ | split; [reflexivity | ]].
  - rewrite (Get_All_Apoapsis_In_Range_eq _ _ _ _ _ _ _ _ _ Hs), Hpk. reflexivity.
  - rewrite (Get_All_Apoapsis_In_Range_eq _ _ _ _ _ _ _ _ _ Hs), Hpk. reflexivity.
Qed.

(** The other way round: with the same rounding two peaks can tie although
    the last one is strictly farther from the middle of the interval. *)
Lemma rounded_midpoint_tie (a1 a2 : R) :
  reduction_of 0 7 1 [a1; a2] [3; 5] = Raise ValueError
  /\ Z.abs (2 * 3 - (0 + 7)) < Z.abs (2 * 5 - (0 + 7)).
Proof. split; reflexivity. Qed.

Lemma Get_Trajectory_dipole_shift_witness :
  Get_Trajectory Synthetic.str2et (Synthetic.spkpos Synthetic.level) "MESSENGER"
    [0; 2000000] 2 "MSM" true
  = fmap (map (fun p => mkVec (v0 p) (v1 p) (v2 p + 479)%R))
         (Get_Trajectory Synthetic.str2et (Synthetic.spkpos Synthetic.level) "MESSENGER"
            [0; 2000000] 2 "MSO" true)
  /\ Get_Trajectory Synthetic.str2et (Synthetic.spkpos Synthetic.level) "MESSENGER"
       [0; 2000000] 0 "MSM" false = Raise IndexError.
Proof.
  split.
  - apply (proj1 (Get_Trajectory_dipole_shift Synthetic.str2et
                    (Synthetic.spkpos Synthetic.level) "MESSENGER" [0; 2000000] 2 true)).
    discriminate.
  - rewrite (proj2 (proj2 (Get_Trajectory_dipole_shift Synthetic.str2et
                             (Synthetic.spkpos Synthetic.level) "MESSENGER"
                             [0; 2000000] 0 false))).
    reflexivity.
Defined.
